(** * ArUco detection service: detection-to-geocoordinate pipeline

    A shallow embedding of [app/georef.py], [app/detector.py] and the
    [/detect] handler of [app/main.py], followed by the properties of the
    pipeline that the specification states.

    Numeric conventions.  Python floats and NumPy float arrays are idealised
    as exact numbers: real numbers ([R]) in the geometry and coordinate
    code, where [sqrt], [exp] and [atan2] occur, and rationals ([Q]) for
    raster pixel buffers, where everything stays computable.  Integers are
    [Z].  Exceptions are values of type [exn]; a function that can raise
    returns [exn + A]; code that touches the file system or the network runs
    in a state-and-exception monad over [World]. *)

From Stdlib Require Import Reals Lra Lia ZArith QArith Qround List String Ascii.
From Stdlib Require Import Sorting.Sorted Sorting.Permutation.
From Stdlib Require Import Numbers.DecimalString.
From stdpp Require Import gmap strings.
Import ListNotations.

(** ** Python built-ins used by the service *)

Module Py.

(** Exceptions raised somewhere in the service or in the libraries it calls. *)
Inductive exn : Type :=
| ValueError (msg : string)
| IndexError
| KeyError (key : string)
| ValidationError (field : string)
| FileExistsError
| FileNotFoundError (path : string)
| PermissionError (path : string)
| HTTPStatusError (status : Z)
| TransportError
| RasterioIOError (path : string)
| CvError
| HTTPException (status_code : Z) (detail : string).

(** [repr(s)] for a string without quotes or escapes: single-quoted. *)
Definition repr_str (s : string) : string := "'" +:+ s +:+ "'".

(** [str(e)] as far as the handler needs it. *)
Definition str_exn (e : exn) : string :=
  match e with
  | ValueError msg => msg
  | IndexError => "index out of range"
  | KeyError k => repr_str k
  | ValidationError fld => "validation error for DetectedMarker: " +:+ fld
  | FileExistsError => "No usable temporary file name found"
  | FileNotFoundError p => "No such file or directory: " +:+ p
  | PermissionError p => "Permission denied: " +:+ p
  | HTTPStatusError _ => "HTTP status error"
  | TransportError => "transport error"
  | RasterioIOError p => p +:+ ": not recognized as a supported file format"
  | CvError => "OpenCV error"
  | HTTPException _ detail => detail
  end.

(** [str(n)] for a non-negative integer. *)
Definition str_nat (n : nat) : string :=
  NilEmpty.string_of_uint (Nat.to_uint n).

Fixpoint join (sep : string) (l : list string) : string :=
  match l with
  | [] => ""
  | [s] => s
  | s :: rest => s +:+ sep +:+ join sep rest
  end.

(** [str(l)] for a list of strings: ['a', 'b']. *)
Definition repr_list (l : list string) : string :=
  "[" +:+ join ", " (map repr_str l) +:+ "]".

(** [s in t] for strings: [s] occurs somewhere inside [t]. *)
Definition occurs_in (s t : string) : Prop :=
  exists pre post : string, t = pre +:+ s +:+ post.

Local Open Scope R_scope.

(** [int(x)] on a float: truncation toward zero. *)
Definition int (x : R) : Z :=
  if Rle_dec 0 x then Int_part x else (- Int_part (- x))%Z.

(** Nearest integer, ties to the even neighbour. *)
Definition round_half_even (y : R) : Z :=
  let fl := Int_part y in
  let r := y - IZR fl in
  if Rlt_dec r (1 / 2) then fl
  else if Rlt_dec (1 / 2) r then (fl + 1)%Z
  else if Z.even fl then fl else (fl + 1)%Z.

(** [round(x, ndigits)]: nearest multiple of [10^-ndigits], ties to even. *)
Definition round (x : R) (ndigits : nat) : R :=
  IZR (round_half_even (x * 10 ^ ndigits)) / 10 ^ ndigits.

(** [math.degrees]. *)
Definition degrees (x : R) : R := x * 180 / PI.

(** [math.atan2(y, x)] on reals: the angle of the point [(x, y)], with the
    C library's conventions on the axes and [atan2(0, 0) = 0]. *)
Definition atan2 (y x : R) : R :=
  match total_order_T 0 x with
  | inleft (left _) => atan (y / x)                       (* x > 0 *)
  | inleft (right _) =>                                   (* x = 0 *)
      match total_order_T 0 y with
      | inleft (left _) => PI / 2
      | inleft (right _) => 0
      | inright _ => - PI / 2
      end
  | inright _ =>                                          (* x < 0 *)
      if Rle_dec 0 y then atan (y / x) + PI else atan (y / x) - PI
  end.

End Py.

(** ** NumPy reductions over a Python list of floats *)

Module Np.
Local Open Scope R_scope.

Definition sum (l : list R) : R := fold_right Rplus 0 l.

(** [np.mean]. *)
Definition mean (l : list R) : R := sum l / INR (length l).

(** [np.var]: the population variance, the mean of the squared deviations
    from the mean ([ddof = 0]). *)
Definition var (l : list R) : R :=
  mean (map (fun x => (x - mean l) ^ 2) l).

End Np.

(** ** The world outside the process: files, temporary names, HTTP *)

Module Sys.
Import Py.

(** A response of the remote server: status code and body. *)
Record Response : Type := mkResponse {
  status_code : Z;
  content : string
}.

(** [files] maps a path to the bytes stored there.  [undeletable] holds the
    paths on which [os.remove] is refused by the operating system.
    [rand_names] is the sequence of candidate names the [tempfile] module
    will draw.  [remote] is what a GET of a URL yields; a URL outside it
    cannot be reached. *)
Record World : Type := mkWorld {
  files : gmap string string;
  undeletable : gset string;
  rand_names : list string;
  remote : gmap string Response
}.

(** State-and-exception monad: a raised exception keeps the state reached. *)
Definition M (A : Type) : Type := World -> (exn + A) * World.

Definition ret {A} (x : A) : M A := fun w => (inr x, w).
Definition raise {A} (e : exn) : M A := fun w => (inl e, w).
Definition bind {A B} (c : M A) (k : A -> M B) : M B := fun w =>
  match c w with
  | (inr x, w') => k x w'
  | (inl e, w') => (inl e, w')
  end.
Definition lift {A} (r : exn + A) : M A := fun w => (r, w).

Definition set_files (fs : gmap string string) (w : World) : World :=
  {| files := fs; undeletable := undeletable w;
     rand_names := rand_names w; remote := remote w |}.

Definition set_rand_names (ns : list string) (w : World) : World :=
  {| files := files w; undeletable := undeletable w;
     rand_names := ns; remote := remote w |}.

(** [os.path.exists]. *)
Definition os_path_exists (p : string) (w : World) : bool :=
  bool_decide (is_Some (files w !! p)).

(** [os.remove]. *)
Definition os_remove (p : string) : M unit := fun w =>
  match files w !! p with
  | None => (inl (FileNotFoundError p), w)
  | Some _ =>
      if bool_decide (p ∈ undeletable w) then (inl (PermissionError p), w)
      else (inr tt, set_files (delete p (files w)) w)
  end.

(** [open(p, "wb")] followed by [f.write(data)]. *)
Definition write_file (p data : string) : M unit := fun w =>
  (inr tt, set_files (<[p := data]> (files w)) w).

(** [tempfile.NamedTemporaryFile(delete=False, suffix=suffix, dir=dir)]
    followed by [close()]: candidate names are drawn until one is free, an
    empty file is created under it, and its path is returned. *)
Fixpoint mkstemp_inner (dir suffix : string) (names : list string)
    (fs : gmap string string) : option (string * list string) :=
  match names with
  | [] => None
  | n :: rest =>
      let p := dir +:+ "/tmp" +:+ n +:+ suffix in
      match fs !! p with
      | Some _ => mkstemp_inner dir suffix rest fs
      | None => Some (p, rest)
      end
  end.

Definition NamedTemporaryFile (suffix dir : string) : M string := fun w =>
  match mkstemp_inner dir suffix (rand_names w) (files w) with
  | None => (inl FileExistsError, set_rand_names [] w)
  | Some (p, rest) =>
      (inr p, set_files (<[p := ""]> (files w)) (set_rand_names rest w))
  end.

(** [client.get(url, follow_redirects=True)]. *)
Definition client_get (url : string) : M Response := fun w =>
  match remote w !! url with
  | None => (inl TransportError, w)
  | Some r => (inr r, w)
  end.

(** [response.raise_for_status()]. *)
Definition raise_for_status (r : Response) : M unit :=
  if ((200 <=? status_code r) && (status_code r <? 300))%Z then ret tt
  else raise (HTTPStatusError (status_code r)).

(** [response.is_success]. *)
Definition is_2xx (r : Response) : bool :=
  ((200 <=? status_code r) && (status_code r <? 300))%Z.

End Sys.

Declare Scope monad_scope.
Delimit Scope monad_scope with monad.
Notation "'do' x <- c ;; k" := (Sys.bind c (fun x => k))
  (at level 10, x name, c at level 99, k at level 200) : monad_scope.

(** The same sequencing for pure code that can raise. *)
Definition bind_exn {A B} (r : Py.exn + A) (k : A -> Py.exn + B) : Py.exn + B :=
  match r with
  | inl e => inl e
  | inr x => k x
  end.

Declare Scope exn_scope.
Delimit Scope exn_scope with exn.
Notation "'try!' x <- c ;; k" := (bind_exn c (fun x => k))
  (at level 10, x name, c at level 99, k at level 200) : exn_scope.

(** [try: c  except Exception as e: h e]. *)
Definition try_except {A} (c : Sys.M A) (h : Py.exn -> Sys.M A) : Sys.M A :=
  fun w =>
    match c w with
    | (inr x, w') => (inr x, w')
    | (inl e, w') => h e w'
    end.

(** ** georef.py *)

Module Georef.
Import Py Sys.

(** [rasterio.Affine]: [x = a*col + b*row + c], [y = d*col + e*row + f]. *)
Record Affine : Type := mkAffine {
  coef_a : R; coef_b : R; coef_c : R;
  coef_d : R; coef_e : R; coef_f : R
}.

(** [transform * (col, row)]. *)
Definition affine_apply (t : Affine) (col row : R) : R * R :=
  (coef_a t * col + coef_b t * row + coef_c t,
   coef_d t * col + coef_e t * row + coef_f t)%R.

(** The [offset] argument of [rasterio.transform.xy]. *)
Inductive Offset : Type := center | ul | ur | ll | lr.

(** The shift [(coff, roff)] rasterio adds to [(col, row)] for an offset. *)
Definition offset_shift (o : Offset) : R * R :=
  match o with
  | center => (1 / 2, 1 / 2)
  | ul => (0, 0)
  | ur => (1, 0)
  | ll => (0, 1)
  | lr => (1, 1)
  end%R.

(** [rasterio.transform.xy(transform, row, col, offset)]: the coordinates of
    the pixel at [(row, col)], by default those of its centre. *)
Definition xy (transform : Affine) (row col : Z) (offset : Offset) : R * R :=
  let '(coff, roff) := offset_shift offset in
  affine_apply transform (IZR col + coff) (IZR row + roff).

Definition pixel_to_coords (transform : Affine) (pixel_x pixel_y : R) : R * R :=
  let '(lng, lat) := xy transform (int pixel_y) (int pixel_x) center in
  (lng, lat).

(** *** Raster data *)

(** The pixel datatypes a raster can have. *)
Inductive DType : Type :=
  uint8 | int8 | uint16 | int16 | uint32 | int32 | float32 | float64.

Definition is_uint8 (t : DType) : bool :=
  match t with uint8 => true | _ => false end.

(** A three-dimensional [np.ndarray], nested outermost axis first. *)
Record ndarray : Type := mk_ndarray {
  dtype : DType;
  data : list (list (list Q))
}.

(** An opened raster: its bands (each [H] rows of [W] values), the datatype
    of the pixels, the affine transform and the CRS. *)
Record Dataset : Type := mkDataset {
  bands : list (list (list Q));
  src_dtype : DType;
  src_transform : Affine;
  src_crs : string
}.

(** [src.count]. *)
Definition count (src : Dataset) : nat := length (bands src).

Definition height (src : Dataset) : nat :=
  match bands src with b :: _ => length b | [] => 0 end.

Definition width (src : Dataset) : nat :=
  match bands src with (row :: _) :: _ => length row | _ => 0 end.

(** [src.read(1)]: the first band, shape [(H, W)]. *)
Definition read_band1 (src : Dataset) : exn + list (list Q) :=
  match bands src with
  | b :: _ => inr b
  | [] => inl IndexError
  end.

(** [src.read([1, 2, 3])]: the first three bands, shape [(3, H, W)]. *)
Definition read_bands123 (src : Dataset) : exn + list (list (list Q)) :=
  match bands src with
  | r :: g :: b :: _ => inr [r; g; b]
  | _ => inl IndexError
  end.

(** [np.transpose(img, (1, 2, 0))] of an array of shape [(C, H, W)]. *)
Definition transpose_120 (h w : nat) (img : list (list (list Q)))
    : list (list (list Q)) :=
  map (fun i =>
         map (fun j => map (fun band => nth j (nth i band []) 0%Q) img)
             (seq 0 w))
      (seq 0 h).

(** [np.stack([img, img, img], axis=-1)] of an array of shape [(H, W)]. *)
Definition stack3 (img : list (list Q)) : list (list (list Q)) :=
  map (map (fun v => [v; v; v])) img.

Definition flatten (a : list (list (list Q))) : list Q :=
  concat (map (@concat Q) a).

Definition Qmax (x y : Q) : Q := if Qle_bool x y then y else x.

(** [img.max()]; NumPy refuses an array without elements. *)
Definition np_max (a : list (list (list Q))) : exn + Q :=
  match flatten a with
  | [] => inl (ValueError
      "zero-size array to reduction operation maximum which has no identity")
  | v :: rest => inr (fold_left Qmax rest v)
  end.

(** Truncation toward zero. *)
Definition Qtrunc (q : Q) : Z := Z.quot (Qnum q) (Zpos (Qden q)).

(** One element of [.astype(np.uint8)]: drop the fraction, keep the low
    eight bits (for a float outside [0, 256) the cast is the platform's). *)
Definition to_uint8 (q : Q) : Q := inject_Z (Qtrunc q mod 256).

Definition map3 (f : Q -> Q) (a : list (list (list Q))) : list (list (list Q)) :=
  map (map (map f)) a.

Section Loader.

(** GDAL's decoder: the raster stored in a file's bytes, if they are one. *)
Variable gdal_decode : string -> option Dataset.

(** [rasterio.open(file_path)]. *)
Definition rasterio_open (file_path : string) : M Dataset := fun w =>
  match files w !! file_path with
  | None => (inl (RasterioIOError file_path), w)
  | Some bytes =>
      match gdal_decode bytes with
      | None => (inl (RasterioIOError file_path), w)
      | Some src => (inr src, w)
      end
  end.

(** The body of the [with rasterio.open(file_path) as src:] block, in its
    two steps: reading the bands, and the block under "Ensure uint8 for
    OpenCV". *)
Definition read_rgb (src : Dataset) : exn + list (list (list Q)) :=
  (let band_count := count src in
   if 3 <=? band_count then
     try! img <- read_bands123 src ;;
     inr (transpose_120 (height src) (width src) img)
   else if band_count =? 1 then
     try! img <- read_band1 src ;;
     inr (stack3 img)
   else
     inl (ValueError ("Unexpected band count: " +:+ str_nat band_count)))%exn.

Definition ensure_uint8 (img_dtype : DType) (img : list (list (list Q)))
    : exn + ndarray :=
  (if negb (is_uint8 img_dtype) then
     try! m <- np_max img ;;
     if negb (Qle_bool m 255) then
       inr (mk_ndarray uint8 (map3 (fun v => to_uint8 (v / m * 255)) img))
     else
       inr (mk_ndarray uint8 (map3 to_uint8 img))
   else
     inr (mk_ndarray img_dtype img))%exn.

Definition load_from (src : Dataset) : exn + (ndarray * Affine * string) :=
  (try! img <- read_rgb src ;;
   try! img <- ensure_uint8 (src_dtype src) img ;;
   let transform := src_transform src in
   let crs := src_crs src in
   inr (img, transform, crs))%exn.

Definition load_geotiff_for_detection (file_path : string)
    : M (ndarray * Affine * string) :=
  (do src <- rasterio_open file_path ;;
   lift (load_from src))%monad.

End Loader.

Definition download_geotiff (url : string) : M string :=
  (let temp_dir := "/tmp/aruco" in
   (* os.makedirs(temp_dir, exist_ok=True): directories are not modelled *)
   do temp_path <- NamedTemporaryFile ".tif" temp_dir ;;
   do response <- client_get url ;;
   do _ <- raise_for_status response ;;
   do _ <- write_file temp_path (content response) ;;
   ret temp_path)%monad.

Definition cleanup_temp_file (file_path : string) : M unit :=
  try_except
    (fun w =>
       if os_path_exists file_path w then os_remove file_path w
       else ret tt w)
    (fun _ => ret tt).

End Georef.

(** ** detector.py *)

Module Detector.
Import Py Georef.
Local Open Scope R_scope.

(** The predefined dictionaries of [cv2.aruco] that the service offers. *)
Inductive PredefinedDictionaryType : Type :=
| DICT_4X4_50 | DICT_4X4_100 | DICT_4X4_250 | DICT_4X4_1000
| DICT_5X5_50 | DICT_5X5_100 | DICT_5X5_250 | DICT_5X5_1000
| DICT_6X6_50 | DICT_6X6_100 | DICT_6X6_250 | DICT_6X6_1000
| DICT_7X7_50 | DICT_7X7_100 | DICT_7X7_250 | DICT_7X7_1000
| DICT_ARUCO_ORIGINAL.

(** The dict literal, in insertion order. *)
Definition ARUCO_DICTIONARIES : list (string * PredefinedDictionaryType) :=
  [ ("DICT_4X4_50", DICT_4X4_50);
    ("DICT_4X4_100", DICT_4X4_100);
    ("DICT_4X4_250", DICT_4X4_250);
    ("DICT_4X4_1000", DICT_4X4_1000);
    ("DICT_5X5_50", DICT_5X5_50);
    ("DICT_5X5_100", DICT_5X5_100);
    ("DICT_5X5_250", DICT_5X5_250);
    ("DICT_5X5_1000", DICT_5X5_1000);
    ("DICT_6X6_50", DICT_6X6_50);
    ("DICT_6X6_100", DICT_6X6_100);
    ("DICT_6X6_250", DICT_6X6_250);
    ("DICT_6X6_1000", DICT_6X6_1000);
    ("DICT_7X7_50", DICT_7X7_50);
    ("DICT_7X7_100", DICT_7X7_100);
    ("DICT_7X7_250", DICT_7X7_250);
    ("DICT_7X7_1000", DICT_7X7_1000);
    ("DICT_ARUCO_ORIGINAL", DICT_ARUCO_ORIGINAL) ].

(** [d.keys()]. *)
Definition keys {V} (d : list (string * V)) : list string := map fst d.

(** [name in d]. *)
Definition contains {V} (name : string) (d : list (string * V)) : bool :=
  existsb (String.eqb name) (keys d).

(** [d[name]]. *)
Fixpoint getitem {V} (d : list (string * V)) (name : string) : exn + V :=
  match d with
  | [] => inl (KeyError name)
  | (k, v) :: rest => if String.eqb name k then inr v else getitem rest name
  end.

(** A [cv2.aruco.Dictionary], known here only by the catalogue it holds. *)
Record Dictionary : Type := mkDictionary {
  catalogue : PredefinedDictionaryType
}.

Definition getPredefinedDictionary (t : PredefinedDictionaryType) : Dictionary :=
  mkDictionary t.

Definition get_aruco_dictionary (name : string) : exn + Dictionary :=
  if negb (contains name ARUCO_DICTIONARIES) then
    inl (ValueError
           (("Unknown ArUco dictionary: " +:+ name +:+ ". ")
            +:+ ("Available: " +:+ repr_list (keys ARUCO_DICTIONARIES))))
  else
    (try! c <- getitem ARUCO_DICTIONARIES name ;;
     inr (getPredefinedDictionary c))%exn.

(** *** Geometry of one detection *)

Definition Point : Type := R * R.

(** The [(4, 2)] array of one marker's corners. *)
Record Corners : Type := mkCorners {
  corner0 : Point; corner1 : Point; corner2 : Point; corner3 : Point
}.

(** [corners[i]] for [i] in [range(4)]. *)
Definition corner_at (corners : Corners) (i : nat) : Point :=
  match i with
  | 0%nat => corner0 corners
  | 1%nat => corner1 corners
  | 2%nat => corner2 corners
  | _ => corner3 corners
  end.

Definition rows (corners : Corners) : list Point :=
  [corner0 corners; corner1 corners; corner2 corners; corner3 corners].

(** [np.sqrt(np.sum((p2 - p1) ** 2))]. *)
Definition side_length (p1 p2 : Point) : R :=
  sqrt ((fst p2 - fst p1) ^ 2 + (snd p2 - snd p1) ^ 2).

Definition side_lengths (corners : Corners) : list R :=
  map (fun i => side_length (corner_at corners i)
                            (corner_at corners ((i + 1) mod 4)))
      (seq 0 4).

Definition calculate_confidence (corners : Corners) : R :=
  let sides := side_lengths corners in
  let mean_side := Np.mean sides in
  if Req_dec_T mean_side 0 then 0
  else
    let variance := Np.var sides / mean_side ^ 2 in
    let confidence := exp (- 5 * variance) in
    Rmin 1 (Rmax 0 confidence).

Definition calculate_rotation (corners : Corners) : R :=
  let top_left := corner_at corners 0 in
  let top_right := corner_at corners 1 in
  let dx := fst top_right - fst top_left in
  let dy := snd top_right - snd top_left in
  let angle_rad := atan2 dy dx in
  let angle_deg := degrees angle_rad in
  angle_deg.

(** *** The pipeline *)

(** The fields of [cv2.aruco.DetectorParameters] that the service sets. *)
Record DetectorParameters : Type := mkDetectorParameters {
  adaptiveThreshConstant : Q;
  adaptiveThreshWinSizeMin : Z;
  adaptiveThreshWinSizeMax : Z;
  adaptiveThreshWinSizeStep : Z;
  minMarkerPerimeterRate : Q;
  maxMarkerPerimeterRate : Q;
  polygonalApproxAccuracyRate : Q;
  minCornerDistanceRate : Q;
  minDistanceToBorder : Z
}.

(** The profile tuned for aerial imagery. *)
Definition tuned_parameters : DetectorParameters :=
  {| adaptiveThreshConstant := 7;
     adaptiveThreshWinSizeMin := 3;
     adaptiveThreshWinSizeMax := 23;
     adaptiveThreshWinSizeStep := 10;
     minMarkerPerimeterRate := 1 # 100;
     maxMarkerPerimeterRate := 4;
     polygonalApproxAccuracyRate := 5 # 100;
     minCornerDistanceRate := 5 # 100;
     minDistanceToBorder := 3 |}.

(** What [detector.detectMarkers] returns: the corner arrays and, unless
    nothing was found, the identifiers. *)
Record Detections : Type := mkDetections {
  det_corners : list Corners;
  det_ids : option (list Z)
}.

(** One entry of the result list. *)
Record Marker : Type := mkMarker {
  marker_id : Z;
  latitude : R;
  longitude : R;
  pixel_x : Z;
  pixel_y : Z;
  corner_pixels : list (list R);
  corner_coords : list (list R);
  confidence : R;
  rotation_deg : R
}.

(** [list.sort(key=key)]: a stable sort, ascending by key. *)
Fixpoint insert_by {A} (key : A -> Z) (x : A) (l : list A) : list A :=
  match l with
  | [] => [x]
  | y :: rest =>
      if (key x <=? key y)%Z then x :: y :: rest
      else y :: insert_by key x rest
  end.

Definition list_sort {A} (key : A -> Z) (l : list A) : list A :=
  fold_right (insert_by key) [] l.

(** The body of the loop over the detections: the record of one marker. *)
Definition assemble (transform : Affine) (marker_id : Z)
    (corner_pixels : Corners) : Marker :=
  let center_x := Np.mean (map fst (rows corner_pixels)) in
  let center_y := Np.mean (map snd (rows corner_pixels)) in
  let '(center_lng, center_lat) :=
    pixel_to_coords transform center_x center_y in
  let corner_coords :=
    map (fun '(px, py) =>
           let '(lng, lat) := pixel_to_coords transform px py in
           [lat; lng])
        (rows corner_pixels) in
  let confidence := calculate_confidence corner_pixels in
  let rotation := calculate_rotation corner_pixels in
  {| marker_id := marker_id;
     latitude := center_lat;
     longitude := center_lng;
     pixel_x := int center_x;
     pixel_y := int center_y;
     corner_pixels := map (fun '(px, py) => [px; py]) (rows corner_pixels);
     corner_coords := corner_coords;
     confidence := round confidence 4;
     rotation_deg := round rotation 2 |}.

(** [for i, marker_id in enumerate(ids.flatten()): ... markers.append(...)],
    entered at index [i] with the markers appended so far. *)
Fixpoint collect (transform : Affine) (corners : list Corners) (i : nat)
    (ids : list Z) (markers : list Marker) : exn + list Marker :=
  match ids with
  | [] => inr markers
  | marker_id :: rest =>
      match corners !! i with
      | None => inl IndexError
      | Some corner_pixels =>
          collect transform corners (S i) rest
                  (markers ++ [assemble transform marker_id corner_pixels])
      end
  end.

Section Pipeline.

(** The two OpenCV calls: [cv2.cvtColor(image, cv2.COLOR_RGB2GRAY)] and
    [ArucoDetector(aruco_dict, parameters).detectMarkers(gray)]. *)
Variable cvtColor_RGB2GRAY : ndarray -> list (list Q).
Variable detectMarkers :
  Dictionary -> DetectorParameters -> list (list Q) -> exn + Detections.

Definition detect_aruco_markers (image : ndarray) (transform : Affine)
    (dictionary_name : string) : exn + list Marker :=
  (try! aruco_dict <- get_aruco_dictionary dictionary_name ;;
   let parameters := tuned_parameters in
   let gray := cvtColor_RGB2GRAY image in
   try! found <- detectMarkers aruco_dict parameters gray ;;
   try! markers <-
     match det_ids found with
     | Some ids => collect transform (det_corners found) 0 ids []
     | None => inr []
     end ;;
   inr (list_sort marker_id markers))%exn.

End Pipeline.

End Detector.

(** ** main.py: the [/detect] handler *)

Module Main.
Import Py Sys Georef Detector.

Record DetectionRequest : Type := mkDetectionRequest {
  geotiff_url : string;
  dictionary : string;
  callback_url : option string
}.

Record DetectionResponse : Type := mkDetectionResponse {
  success : bool;
  marker_count : nat;
  markers : list Marker;
  resp_dictionary : string;
  resp_geotiff_url : string;
  error : option string
}.

(** Building a [DetectedMarker] from the fields of a raw marker: the model
    validates [confidence] against
    [ge=0, le=1]; the other fields already have their declared types. *)
Definition DetectedMarker (m : Marker) : exn + Marker :=
  if Rle_dec 0 (confidence m) then
    if Rle_dec (confidence m) 1 then inr m
    else inl (ValidationError "confidence")
  else inl (ValidationError "confidence").

(** The list comprehension that builds a [DetectedMarker] from every
    element of [raw_markers]. *)
Fixpoint validate_all (raw_markers : list Marker) : exn + list Marker :=
  match raw_markers with
  | [] => inr []
  | m :: rest =>
      (try! m' <- DetectedMarker m ;;
       try! rest' <- validate_all rest ;;
       inr (m' :: rest'))%exn
  end.

(** The [except Exception as e:] clause of the handler: any exception of
    the [try] block is re-raised as an HTTP 500 that carries its text. *)
Definition handler_outcome (r : exn + DetectionResponse)
    : exn + DetectionResponse :=
  match r with
  | inr response => inr response
  | inl e => inl (HTTPException 500 ("Detection failed: " +:+ str_exn e))
  end.

(** Truth value of [temp_file] in [if temp_file:]. *)
Definition truthy (temp_file : option string) : bool :=
  match temp_file with
  | Some p => negb (String.eqb p "")
  | None => false
  end.

Section Handler.

Variable gdal_decode : string -> option Dataset.
Variable cvtColor_RGB2GRAY : ndarray -> list (list Q).
Variable detectMarkers :
  Dictionary -> DetectorParameters -> list (list Q) -> exn + Detections.

(** The statements of the [try] block after the download. *)
Definition process (request : DetectionRequest) (temp_file : string)
    : M DetectionResponse :=
  (do loaded <- load_geotiff_for_detection gdal_decode temp_file ;;
   let '(image, transform, crs) := loaded in
   do raw_markers <-
     lift (detect_aruco_markers cvtColor_RGB2GRAY detectMarkers
             image transform (dictionary request)) ;;
   do markers <- lift (validate_all raw_markers) ;;
   ret {| success := true;
          marker_count := length markers;
          markers := markers;
          resp_dictionary := dictionary request;
          resp_geotiff_url := geotiff_url request;
          error := None |})%monad.

Definition detect_markers (request : DetectionRequest) : M DetectionResponse :=
  fun w =>
    (* temp_file = None; try: temp_file = await download_geotiff(...) *)
    let '(downloaded, w1) := download_geotiff (geotiff_url request) w in
    let temp_file :=
      match downloaded with inr p => Some p | inl _ => None end in
    let '(outcome, w2) :=
      match downloaded with
      | inr p => process request p w1
      | inl e => (inl e, w1)
      end in
    (* except Exception as e: raise HTTPException(500, ...) *)
    let outcome := handler_outcome outcome in
    (* finally: if temp_file: cleanup_temp_file(temp_file) *)
    let w3 :=
      match temp_file with
      | Some p => if truthy temp_file then snd (cleanup_temp_file p w2) else w2
      | None => w2
      end in
    (outcome, w3).

End Handler.

End Main.

(** ** The geometry analyzer in the specification's words *)

Module Spec.
Import Detector.
Local Open Scope R_scope.

Definition distance (p q : Point) : R :=
  sqrt ((fst q - fst p) ^ 2 + (snd q - snd p) ^ 2).

(** Confidence as the specification words it: the four consecutive side
    lengths (wrapping), their population variance divided by the square of
    their mean, zero for a zero mean, and otherwise [exp (-5 * variance)]
    clamped to [0, 1]. *)
Definition confidence (c : Corners) : R :=
  let s0 := distance (corner0 c) (corner1 c) in
  let s1 := distance (corner1 c) (corner2 c) in
  let s2 := distance (corner2 c) (corner3 c) in
  let s3 := distance (corner3 c) (corner0 c) in
  let mean := (s0 + s1 + s2 + s3) / 4 in
  let population_variance :=
    ((s0 - mean) ^ 2 + (s1 - mean) ^ 2 + (s2 - mean) ^ 2 + (s3 - mean) ^ 2) / 4 in
  let variance := population_variance / mean ^ 2 in
  if Req_dec_T mean 0 then 0
  else Rmax 0 (Rmin 1 (exp (- 5 * variance))).





(** The detector's output as the list of raw detections it stands for:
    each identifier with its corner set, in the detector's order. *)
Definition raw_detections (found : Detections) : list (Z * Corners) :=
  match det_ids found with
  | Some ids => combine ids (det_corners found)
  | None => []
  end.

(** The detector hands out one corner set per identifier. *)
Definition ids_match_corners (found : Detections) : Prop :=
  match det_ids found with
  | Some ids => length ids = length (det_corners found)
  | None => True
  end.


(** The bounds the response model puts on a marker's confidence. *)
Definition valid_confidence (m : Marker) : Prop :=
  0 <= Detector.confidence m <= 1.



End Spec.

(** ** Sample inputs *)

Module Samples.
Import Georef Detector.
Local Open Scope R_scope.

(** Pixel size 1, no rotation, origin (0, 0). *)
Definition identity_transform : Affine := mkAffine 1 0 0 0 1 0.

(** The square (0,0), (10,0), (10,10), (0,10). *)
Definition square10 : Corners :=
  mkCorners (0, 0) (10, 0) (10, 10) (0, 10).

(** A marker seen upside down, its top edge running from (120, 120) to
    (100, 119.999): a thousandth of a pixel away from horizontal. *)
Definition upside_down : Corners :=
  mkCorners (120, 120) (100, 119999 / 1000) (100, 100) (120, 100).

(** A 16-bit grayscale raster, one row of two pixels, none above 255. *)
Definition gray16 : Dataset :=
  mkDataset [[[100; 200]]]%Q uint16 identity_transform "EPSG:4326".

(** A 16-bit grayscale raster that uses more than eight bits. *)
Definition deep16 : Dataset :=
  mkDataset [[[0; 510; 1020]]]%Q uint16 identity_transform "EPSG:4326".

(** An 8-bit raster with four bands (RGBA), a single pixel. *)
Definition rgba8 : Dataset :=
  mkDataset [[[10]]; [[20]]; [[30]]; [[255]]]%Q uint8
            identity_transform "EPSG:4326".

(** A raster with two bands. *)
Definition two_bands : Dataset :=
  mkDataset [[[1]]; [[2]]]%Q uint8 identity_transform "EPSG:4326".

(** A decoder that knows the sample rasters by the content of the file. *)
Definition sample_decode (bytes : string) : option Dataset :=
  if String.eqb bytes "gray16" then Some gray16
  else if String.eqb bytes "deep16" then Some deep16
  else if String.eqb bytes "rgba8" then Some rgba8
  else if String.eqb bytes "two_bands" then Some two_bands
  else None.

(** A machine that holds the sample rasters on disk. *)
Definition disk : Sys.World :=
  Sys.mkWorld
    (<["/data/gray16.tif" := "gray16"]>
       (<["/data/deep16.tif" := "deep16"]>
          (<["/data/rgba8.tif" := "rgba8"]>
             (<["/data/two_bands.tif" := "two_bands"]> ∅))))
    ∅ [] ∅.

(** The raster [rgba8] without its fourth band. *)
Definition rgb8 : Dataset :=
  mkDataset [[[10]]; [[20]]; [[30]]]%Q uint8 identity_transform "EPSG:4326".

(** A decoder for the two, and a disk that holds both. *)
Definition decode_rgb (bytes : string) : option Dataset :=
  if String.eqb bytes "rgba8" then Some rgba8
  else if String.eqb bytes "rgb8" then Some rgb8
  else None.

Definition disk_rgb : Sys.World :=
  Sys.mkWorld
    (<["/data/rgba8.tif" := "rgba8"]> (<["/data/rgb8.tif" := "rgb8"]> ∅))
    ∅ [] ∅.

(** Three detections, out of order and with a repeated identifier. *)
Definition three_found : Detections :=
  mkDetections [square10; upside_down; square10] (Some [5; 2; 5]%Z).

Definition no_gray : ndarray -> list (list Q) := fun _ => [].

Definition finds_three
    : Dictionary -> DetectorParameters -> list (list Q) -> Py.exn + Detections :=
  fun _ _ _ => inr three_found.

(** Two detections, and the same two in the other order. *)
Definition finds_5_then_2
    : Dictionary -> DetectorParameters -> list (list Q) -> Py.exn + Detections :=
  fun _ _ _ => inr (mkDetections [square10; upside_down] (Some [5; 2]%Z)).

Definition finds_2_then_5
    : Dictionary -> DetectorParameters -> list (list Q) -> Py.exn + Detections :=
  fun _ _ _ => inr (mkDetections [upside_down; square10] (Some [2; 5]%Z)).

Definition finds_none
    : Dictionary -> DetectorParameters -> list (list Q) -> Py.exn + Detections :=
  fun _ _ _ => inr (mkDetections [] None).

(** The path the next temporary file gets in the sample worlds. *)
Definition staged_path : string := "/tmp/aruco/tmpk3j2x9.tif".

(** A server that holds one raster; nothing is on disk yet. *)
Definition online : Sys.World :=
  Sys.mkWorld ∅ ∅ ["k3j2x9"]
    (<["https://maps.example/ortho.tif" := Sys.mkResponse 200 "gray16"]>
       (<["https://maps.example/gone.tif" := Sys.mkResponse 404 ""]> ∅)).


(** Requests against the sample server. *)
Definition ortho_request : Main.DetectionRequest :=
  Main.mkDetectionRequest "https://maps.example/ortho.tif" "DICT_7X7_1000" None.

Definition gone_request : Main.DetectionRequest :=
  Main.mkDetectionRequest "https://maps.example/gone.tif" "DICT_7X7_1000" None.

Definition unknown_dictionary_request : Main.DetectionRequest :=
  Main.mkDetectionRequest "https://maps.example/ortho.tif" "DICT_8X8_50" None.

End Samples.

(** * Properties *)

(** ** Truncation and rounding *)

Section Numbers.
Local Open Scope R_scope.

Lemma int_nonneg (x : R) : 0 <= x -> IZR (Py.int x) <= x < IZR (Py.int x) + 1.
Proof.
  intros Hx. unfold Py.int. destruct (Rle_dec 0 x) as [_ | Hn]; [| tauto].
  destruct (base_Int_part x) as [Hlo Hhi]. lra.
Qed.

Lemma int_neg (x : R) : x < 0 -> x <= IZR (Py.int x) < x + 1.
Proof.
  intros Hx. unfold Py.int. destruct (Rle_dec 0 x) as [Hp | _]; [lra |].
  destruct (base_Int_part (- x)) as [Hlo Hhi]. rewrite opp_IZR. lra.
Qed.

Lemma int_unique_nonneg (x : R) (z : Z) :
  0 <= x -> IZR z <= x < IZR z + 1 -> Py.int x = z.
Proof.
  intros Hx [Hlo Hhi]. unfold Py.int.
  destruct (Rle_dec 0 x) as [_ | Hn]; [| tauto].
  symmetry. apply Int_part_spec. lra.
Qed.

Lemma int_unique_neg (x : R) (z : Z) :
  x < 0 -> x <= IZR z < x + 1 -> Py.int x = z.
Proof.
  intros Hx [Hlo Hhi]. unfold Py.int.
  destruct (Rle_dec 0 x) as [Hp | _]; [lra |].
  assert (H : (- z)%Z = Int_part (- x)).
  { apply Int_part_spec. rewrite opp_IZR. lra. }
  rewrite <- H. lia.
Qed.

Lemma int_IZR (z : Z) : Py.int (IZR z) = z.
Proof.
  destruct (Rle_or_lt 0 (IZR z)) as [Hp | Hn].
  - apply int_unique_nonneg; lra.
  - apply int_unique_neg; lra.
Qed.

(** [int] never moves away from zero and drops less than one unit. *)
Lemma int_toward_zero (x : R) :
  Rabs (IZR (Py.int x)) <= Rabs x < Rabs (IZR (Py.int x)) + 1 /\
  0 <= x * IZR (Py.int x).
Proof.
  destruct (Rle_or_lt 0 x) as [Hp | Hn].
  - destruct (int_nonneg x Hp) as [Hlo Hhi].
    assert (H0 : 0 <= IZR (Py.int x)).
    { apply IZR_le. apply Z.lt_succ_r. apply lt_IZR.
      rewrite succ_IZR. lra. }
    rewrite !Rabs_pos_eq by lra. split; [lra | nra].
  - destruct (int_neg x Hn) as [Hlo Hhi].
    assert (H0 : IZR (Py.int x) <= 0).
    { apply IZR_le. apply Z.lt_succ_r. apply lt_IZR.
      rewrite succ_IZR. lra. }
    rewrite (Rabs_left x) by lra.
    destruct (Req_dec (IZR (Py.int x)) 0) as [Hz | Hnz].
    + rewrite Hz, Rabs_R0. split; [lra | nra].
    + rewrite (Rabs_left (IZR (Py.int x))) by lra. split; [lra | nra].
Qed.

Lemma round_half_even_bounds (y : R) :
  IZR (Py.round_half_even y) - 1 / 2 <= y <= IZR (Py.round_half_even y) + 1 / 2.
Proof.
  unfold Py.round_half_even.
  destruct (base_Int_part y) as [Hlo Hhi].
  destruct (Rlt_dec (y - IZR (Int_part y)) (1 / 2)) as [H1 | H1].
  - lra.
  - destruct (Rlt_dec (1 / 2) (y - IZR (Int_part y))) as [H2 | H2].
    + rewrite plus_IZR. lra.
    + destruct (Z.even (Int_part y)); [lra | rewrite plus_IZR; lra].
Qed.

(** Rounding to the nearest integer stays between integer bounds. *)
Lemma round_half_even_between (y : R) (lo hi : Z) :
  IZR lo <= y <= IZR hi -> (lo <= Py.round_half_even y <= hi)%Z.
Proof.
  intros [Hlo Hhi]. destruct (round_half_even_bounds y) as [H1 H2].
  split.
  - apply Z.lt_succ_r. apply lt_IZR. rewrite succ_IZR. lra.
  - apply Z.lt_succ_r. apply lt_IZR. rewrite succ_IZR. lra.
Qed.


Lemma pow10_pos (n : nat) : 0 < 10 ^ n.
Proof. apply pow_lt. lra. Qed.

(** [round(x, n)] stays between bounds that are whole numbers. *)
Lemma round_between (x : R) (n : nat) (lo hi : Z) :
  IZR lo <= x <= IZR hi -> IZR lo <= Py.round x n <= IZR hi.
Proof.
  intros [Hlo Hhi]. unfold Py.round.
  pose proof (pow10_pos n) as Hp.
  assert (Hz : exists k : Z, IZR k = 10 ^ n).
  { exists (10 ^ Z.of_nat n)%Z. rewrite <- pow_IZR. reflexivity. }
  destruct Hz as [k Hk].
  destruct (round_half_even_between (x * 10 ^ n) (lo * k) (hi * k)) as [H1 H2].
  { rewrite !mult_IZR, Hk. split; apply Rmult_le_compat_r; lra. }
  apply IZR_le in H1, H2. rewrite mult_IZR, Hk in H1, H2.
  split.
  - apply Rmult_le_reg_r with (10 ^ n); [lra |].
    unfold Rdiv. rewrite Rmult_assoc, Rinv_l by lra. lra.
  - apply Rmult_le_reg_r with (10 ^ n); [lra |].
    unfold Rdiv. rewrite Rmult_assoc, Rinv_l by lra. lra.
Qed.

End Numbers.

(** ** Coordinate mapper *)

Section CoordinateMapper.
Import Georef Samples.
Local Open Scope R_scope.

Lemma int_10_6 : Py.int (106 / 10) = 10%Z.
Proof. apply int_unique_nonneg; lra. Qed.

Lemma pixel_to_coords_unfold (t : Affine) (px py : R) :
  pixel_to_coords t px py =
  affine_apply t (IZR (Py.int px) + 1 / 2) (IZR (Py.int py) + 1 / 2).
Proof. reflexivity. Qed.

Lemma pixel_to_coords_identity_100 :
  pixel_to_coords identity_transform 100 100 = (100 + 1 / 2, 100 + 1 / 2).
Proof.
  rewrite pixel_to_coords_unfold, int_IZR. unfold affine_apply. simpl.
  f_equal; lra.
Qed.

(** C2, as stated, fails: under the identity transform pixel (100, 100) is
    not mapped to (100, 100), and the result is not the plain affine image
    of the pixel indices. *)
Lemma pixel_to_coords_identity_100_inexact :
  pixel_to_coords identity_transform 100 100 <> (100, 100) /\
  pixel_to_coords identity_transform 100 100 <>
    affine_apply identity_transform 100 100.
Proof.
  rewrite pixel_to_coords_identity_100. unfold affine_apply. simpl.
  split; intros H; injection H; intros; lra.
Qed.

(** C2, amended: the mapper applies the six-coefficient affine mapping at
    the centre of the pixel, [x = a*(col + 1/2) + b*(row + 1/2) + c] and
    [y = d*(col + 1/2) + e*(row + 1/2) + f], where [col] and [row] are the
    integer parts of the two inputs; the identity transform maps pixel
    (100, 100) to (100.5, 100.5). *)
Theorem pixel_to_coords_affine_at_centre :
  (forall (t : Affine) (px py : R),
     let col := IZR (Py.int px) in
     let row := IZR (Py.int py) in
     pixel_to_coords t px py =
     (coef_a t * (col + 1 / 2) + coef_b t * (row + 1 / 2) + coef_c t,
      coef_d t * (col + 1 / 2) + coef_e t * (row + 1 / 2) + coef_f t)) /\
  pixel_to_coords identity_transform 100 100 = (100 + 1 / 2, 100 + 1 / 2).
Proof.
  split.
  - intros t px py col row. reflexivity.
  - apply pixel_to_coords_identity_100.
Qed.

(** C3, as stated, fails: at (10.6, 10.6) the transform is applied at pixel
    (10, 10), not at (11, 11). *)
Lemma pixel_to_coords_10_6_not_at_11 :
  pixel_to_coords identity_transform (106 / 10) (106 / 10) =
    xy identity_transform 10 10 center /\
  pixel_to_coords identity_transform (106 / 10) (106 / 10) <>
    xy identity_transform 11 11 center /\
  pixel_to_coords identity_transform (106 / 10) (106 / 10) <>
    affine_apply identity_transform 11 11.
Proof.
  rewrite pixel_to_coords_unfold, int_10_6.
  unfold xy, affine_apply. simpl.
  split; [reflexivity |].
  split; intros H; injection H; intros; lra.
Qed.

(** C3, amended: both pixel coordinates are truncated toward zero (Python's
    [int]) before the transform is applied: the integer used never lies
    farther from zero than the input, differs from it by less than one, and
    has its sign; (10.6, 10.6) is mapped as pixel (10, 10). *)
Theorem pixel_to_coords_truncates :
  (forall (t : Affine) (px py : R),
     pixel_to_coords t px py = xy t (Py.int py) (Py.int px) center) /\
  (forall x : R,
     Rabs (IZR (Py.int x)) <= Rabs x < Rabs (IZR (Py.int x)) + 1 /\
     0 <= x * IZR (Py.int x)) /\
  (forall t : Affine,
     pixel_to_coords t (106 / 10) (106 / 10) = xy t 10 10 center).
Proof.
  split; [| split].
  - intros t px py. unfold pixel_to_coords.
    destruct (xy t (Py.int py) (Py.int px) center). reflexivity.
  - apply int_toward_zero.
  - intros t. rewrite pixel_to_coords_unfold, int_10_6. reflexivity.
Qed.

End CoordinateMapper.

(** ** Geometry analyzer *)

Section Geometry.
Import Georef Detector Samples.
Local Open Scope R_scope.

Lemma side_lengths_unfold (c : Corners) :
  side_lengths c =
  [ side_length (corner0 c) (corner1 c);
    side_length (corner1 c) (corner2 c);
    side_length (corner2 c) (corner3 c);
    side_length (corner3 c) (corner0 c) ].
Proof. reflexivity. Qed.

Lemma mean4 (a b c d : R) : Np.mean [a; b; c; d] = (a + b + c + d) / 4.
Proof. unfold Np.mean, Np.sum. simpl. lra. Qed.

Lemma var4 (a b c d : R) :
  Np.var [a; b; c; d] =
  let m := (a + b + c + d) / 4 in
  ((a - m) ^ 2 + (b - m) ^ 2 + (c - m) ^ 2 + (d - m) ^ 2) / 4.
Proof. unfold Np.var. cbn [map]. rewrite !mean4. reflexivity. Qed.

Lemma var4_nonneg (a b c d : R) : 0 <= Np.var [a; b; c; d].
Proof.
  rewrite var4. cbv zeta.
  set (m := (a + b + c + d) / 4).
  pose proof (pow2_ge_0 (a - m)). pose proof (pow2_ge_0 (b - m)).
  pose proof (pow2_ge_0 (c - m)). pose proof (pow2_ge_0 (d - m)). lra.
Qed.

Lemma side_length_nonneg (p q : Point) : 0 <= side_length p q.
Proof. apply sqrt_pos. Qed.

Lemma side_length_same (p : Point) : side_length p p = 0.
Proof.
  unfold side_length.
  replace ((fst p - fst p) ^ 2 + (snd p - snd p) ^ 2) with 0 by ring.
  apply sqrt_0.
Qed.

(** The exponential of a non-positive number already lies in (0, 1]. *)
Lemma exp_nonpos_range (x : R) : x <= 0 -> 0 < exp x <= 1.
Proof.
  intros Hx. split; [apply exp_pos |].
  destruct (Req_dec x 0) as [-> | Hne].
  - rewrite exp_0. lra.
  - rewrite <- exp_0. left. apply exp_increasing. lra.
Qed.

Lemma clamp_id (x : R) : 0 <= x <= 1 -> Rmin 1 (Rmax 0 x) = x.
Proof.
  intros [H0 H1]. rewrite Rmax_right by lra. rewrite Rmin_right by lra.
  reflexivity.
Qed.


Lemma clamp_range (x : R) : 0 <= Rmin 1 (Rmax 0 x) <= 1.
Proof.
  unfold Rmin, Rmax.
  repeat (destruct (Rle_dec _ _)); lra.
Qed.

Lemma calculate_confidence_range (c : Corners) :
  0 <= calculate_confidence c <= 1.
Proof.
  unfold calculate_confidence.
  destruct (Req_dec_T _ _); [lra | apply clamp_range].
Qed.


Lemma calculate_confidence_zero_mean (c : Corners) :
  Np.mean (side_lengths c) = 0 -> calculate_confidence c = 0.
Proof.
  intros H. unfold calculate_confidence.
  destruct (Req_dec_T _ _); [reflexivity | contradiction].
Qed.

Lemma calculate_confidence_nonzero_mean (c : Corners) :
  Np.mean (side_lengths c) <> 0 ->
  calculate_confidence c =
  exp (- 5 * (Np.var (side_lengths c) / Np.mean (side_lengths c) ^ 2)).
Proof.
  intros H. unfold calculate_confidence.
  destruct (Req_dec_T _ _) as [Hz | _]; [contradiction |].
  apply clamp_id.
  assert (Hr : 0 <= Np.var (side_lengths c) / Np.mean (side_lengths c) ^ 2).
  { rewrite side_lengths_unfold. apply Rmult_le_pos.
    - apply var4_nonneg.
    - left. apply Rinv_0_lt_compat.
      rewrite side_lengths_unfold in H.
      pose proof (pow2_ge_0 (Np.mean
        [side_length (corner0 c) (corner1 c);
         side_length (corner1 c) (corner2 c);
         side_length (corner2 c) (corner3 c);
         side_length (corner3 c) (corner0 c)])) as Hp.
      destruct Hp as [Hp | Hp]; [exact Hp |].
      symmetry in Hp. simpl in Hp. apply Rmult_integral in Hp.
      destruct Hp as [Hp | Hp]; [contradiction |]. lra. }
  destruct (exp_nonpos_range
    (- 5 * (Np.var (side_lengths c) / Np.mean (side_lengths c) ^ 2)));
    lra.
Qed.





End Geometry.

Section Confidence.
Import Georef Detector Samples.
Local Open Scope R_scope.




End Confidence.

(** ** Rotation *)

Section Rotation.
Import Georef Detector Samples.
Local Open Scope R_scope.










Lemma confidence_assemble (t : Affine) (id : Z) (c : Corners) :
  confidence (assemble t id c) = Py.round (calculate_confidence c) 4.
Proof.
  unfold assemble. destruct (pixel_to_coords t _ _). reflexivity.
Qed.




End Rotation.

(** ** Ordering of the result *)

Section Ordering.
Import Georef Detector Samples.
Local Open Scope Z_scope.

Variable A : Type.
Variable key : A -> Z.

Local Abbreviation key_le := (fun x y : A => key x <= key y).

Lemma insert_by_In (x y : A) (l : list A) :
  In y (insert_by key x l) -> y = x \/ In y l.
Proof.
  induction l as [| z l IH]; simpl.
  - intros [H | []]. left. congruence.
  - destruct (key x <=? key z).
    + simpl. intros [H | H]; [left; congruence | right; exact H].
    + simpl. intros [H | H]; [right; left; exact H |].
      destruct (IH H); [left | right; right]; assumption.
Qed.

Lemma insert_by_sorted (x : A) (l : list A) :
  StronglySorted key_le l -> StronglySorted key_le (insert_by key x l).
Proof.
  induction 1 as [| z l Hs IH Hall]; simpl.
  - constructor; constructor.
  - destruct (key x <=? key z) eqn:Hle.
    + apply Z.leb_le in Hle. constructor.
      * constructor; assumption.
      * constructor; [exact Hle |].
        rewrite List.Forall_forall in Hall |- *. intros y Hy.
        specialize (Hall y Hy). simpl in *. lia.
    + apply Z.leb_gt in Hle. constructor; [exact IH |].
      rewrite List.Forall_forall in Hall |- *. intros y Hy.
      destruct (insert_by_In _ _ _ Hy) as [-> | Hin].
      * simpl. lia.
      * apply Hall, Hin.
Qed.

Lemma list_sort_sorted (l : list A) : StronglySorted key_le (list_sort key l).
Proof.
  induction l as [| x l IH]; simpl.
  - constructor.
  - apply insert_by_sorted, IH.
Qed.

Lemma insert_by_perm (x : A) (l : list A) :
  Permutation (x :: l) (insert_by key x l).
Proof.
  induction l as [| z l IH]; simpl.
  - apply Permutation_refl.
  - destruct (key x <=? key z).
    + apply Permutation_refl.
    + eapply perm_trans; [apply perm_swap |]. apply perm_skip, IH.
Qed.

Lemma list_sort_perm (l : list A) : Permutation l (list_sort key l).
Proof.
  induction l as [| x l IH]; simpl.
  - apply perm_nil.
  - eapply perm_trans; [apply perm_skip, IH | apply insert_by_perm].
Qed.

(** Insertion puts the new element in front of the elements of its key. *)
Lemma insert_by_filter (k : Z) (x : A) (l : list A) :
  List.filter (fun y => key y =? k) (insert_by key x l) =
  List.filter (fun y => key y =? k) (x :: l).
Proof.
  induction l as [| z l IH]; simpl.
  - reflexivity.
  - destruct (key x <=? key z) eqn:Hle.
    + reflexivity.
    + apply Z.leb_gt in Hle. simpl. simpl in IH. rewrite IH.
      destruct (key x =? k) eqn:Hx; [| reflexivity].
      apply Z.eqb_eq in Hx.
      assert (Hz : (key z =? k) = false) by (apply Z.eqb_neq; lia).
      rewrite Hz. reflexivity.
Qed.

(** Stability: the elements of one key keep their order. *)
Lemma list_sort_stable (k : Z) (l : list A) :
  List.filter (fun y => key y =? k) (list_sort key l) =
  List.filter (fun y => key y =? k) l.
Proof.
  induction l as [| x l IH]; simpl.
  - reflexivity.
  - rewrite insert_by_filter. simpl. rewrite IH. reflexivity.
Qed.

End Ordering.

Section SortedPipeline.
Import Georef Detector Samples.

Lemma collect_combine (t : Affine) (corners : list Corners) (ids : list Z) :
  forall (i : nat) (acc : list Marker),
    i + length ids <= length corners ->
    collect t corners i ids acc =
    inr (acc ++ map (fun d => assemble t (fst d) (snd d))
                    (combine ids (drop i corners))).
Proof.
  induction ids as [| id ids IH]; intros i acc Hlen; simpl in *.
  - rewrite app_nil_r. reflexivity.
  - destruct (lookup_lt_is_Some_2 corners i) as [c Hc]; [lia |].
    rewrite Hc. rewrite IH by lia.
    rewrite (drop_S _ _ _ Hc). simpl. rewrite <- app_assoc. reflexivity.
Qed.

Lemma collect_raw_detections (t : Affine) (found : Detections) :
  Spec.ids_match_corners found ->
  match det_ids found with
  | Some ids => collect t (det_corners found) 0 ids []
  | None => inr []
  end =
  inr (map (fun d => assemble t (fst d) (snd d)) (Spec.raw_detections found)).
Proof.
  unfold Spec.ids_match_corners, Spec.raw_detections.
  destruct (det_ids found) as [ids |]; intros H.
  - rewrite collect_combine by (simpl; lia). reflexivity.
  - reflexivity.
Qed.

Lemma marker_id_assemble (t : Affine) (id : Z) (c : Corners) :
  marker_id (assemble t id c) = id.
Proof. unfold assemble. destruct (pixel_to_coords t _ _). reflexivity. Qed.

Lemma filter_assembled (t : Affine) (k : Z) (ds : list (Z * Corners)) :
  List.filter (fun m => marker_id m =? k)%Z
              (map (fun d => assemble t (fst d) (snd d)) ds) =
  map (fun d => assemble t (fst d) (snd d))
      (List.filter (fun d => fst d =? k)%Z ds).
Proof.
  induction ds as [| d ds IH]; cbn [map List.filter].
  - reflexivity.
  - rewrite marker_id_assemble, IH.
    destruct (fst d =? k)%Z; reflexivity.
Qed.

(** C1: whatever detections the detector returns and in whatever order,
    the list returned by [detect_aruco_markers] is sorted ascending by
    [marker_id], holds exactly the markers assembled from the detections,
    and lists the markers of any one identifier in the detector's order. *)
Theorem detect_aruco_markers_sorted_stable
    (cvtColor_RGB2GRAY : ndarray -> list (list Q))
    (detectMarkers :
       Dictionary -> DetectorParameters -> list (list Q) -> Py.exn + Detections)
    (image : ndarray) (transform : Affine) (dictionary_name : string)
    (aruco_dict : Dictionary) (found : Detections) :
  get_aruco_dictionary dictionary_name = inr aruco_dict ->
  detectMarkers aruco_dict tuned_parameters (cvtColor_RGB2GRAY image)
    = inr found ->
  Spec.ids_match_corners found ->
  exists markers : list Marker,
    detect_aruco_markers cvtColor_RGB2GRAY detectMarkers
      image transform dictionary_name = inr markers /\
    StronglySorted (fun m1 m2 => (marker_id m1 <= marker_id m2)%Z) markers /\
    Permutation
      (map (fun d => assemble transform (fst d) (snd d))
           (Spec.raw_detections found))
      markers /\
    forall k : Z,
      List.filter (fun m => marker_id m =? k)%Z markers =
      map (fun d => assemble transform (fst d) (snd d))
          (List.filter (fun d => fst d =? k)%Z (Spec.raw_detections found)).
Proof.
  intros Hdict Hfound Hmatch.
  exists (list_sort marker_id
            (map (fun d => assemble transform (fst d) (snd d))
                 (Spec.raw_detections found))).
  split; [| split; [| split]].
  - unfold detect_aruco_markers. rewrite Hdict. cbn [bind_exn].
    rewrite Hfound. cbn [bind_exn].
    rewrite (collect_raw_detections transform found Hmatch). reflexivity.
  - apply (list_sort_sorted Marker marker_id).
  - apply list_sort_perm.
  - intros k. rewrite list_sort_stable. apply filter_assembled.
Qed.

Lemma detect_aruco_markers_sorted_stable_witness :
  exists markers : list Marker,
    detect_aruco_markers no_gray finds_three
      (mk_ndarray uint8 []) identity_transform "DICT_4X4_50" = inr markers /\
    StronglySorted (fun m1 m2 => (marker_id m1 <= marker_id m2)%Z) markers /\
    Permutation
      (map (fun d => assemble identity_transform (fst d) (snd d))
           (Spec.raw_detections three_found))
      markers /\
    forall k : Z,
      List.filter (fun m => marker_id m =? k)%Z markers =
      map (fun d => assemble identity_transform (fst d) (snd d))
          (List.filter (fun d => fst d =? k)%Z (Spec.raw_detections three_found)).
Proof.
  apply (detect_aruco_markers_sorted_stable no_gray finds_three
           (mk_ndarray uint8 []) identity_transform "DICT_4X4_50"
           (mkDictionary DICT_4X4_50) three_found).
  - reflexivity.
  - reflexivity.
  - reflexivity.
Defined.

End SortedPipeline.

(** ** Dictionary resolution *)

Section Dictionaries.
Import Detector.









Lemma contains_In {V} (name : string) (d : list (string * V)) :
  contains name d = true <-> In name (keys d).
Proof.
  unfold contains. rewrite existsb_exists. split.
  - intros (k & Hk & Heq). apply String.eqb_eq in Heq. now subst.
  - intros Hin. exists name. split; [exact Hin | apply String.eqb_refl].
Qed.



End Dictionaries.

(** ** Raster loader *)

Section RasterLoader.
Import Py Sys Georef Samples.

Variable gdal_decode : string -> option Dataset.

Lemma load_opened (w : World) (path bytes : string) (src : Dataset) :
  files w !! path = Some bytes ->
  gdal_decode bytes = Some src ->
  load_geotiff_for_detection gdal_decode path w = (load_from src, w).
Proof.
  intros Hfile Hdec. unfold load_geotiff_for_detection, bind, rasterio_open.
  rewrite Hfile, Hdec. reflexivity.
Qed.

Lemma Qtrunc_whole (q : Q) (z : Z) : (q == inject_Z z)%Q -> Qtrunc q = z.
Proof.
  unfold Qeq, Qtrunc. simpl. intros H. rewrite Z.mul_1_r in H.
  rewrite H. apply Z.quot_mul. discriminate.
Qed.

(** The largest value is sent to 255 by the rescaling. *)
Lemma rescale_max (v m : Q) :
  (255 < m)%Q -> (v == m)%Q -> to_uint8 (v / m * 255) = 255%Q.
Proof.
  intros Hm Hv. unfold to_uint8.
  rewrite (Qtrunc_whole _ 255); [reflexivity |].
  rewrite Hv. change (inject_Z 255) with 255%Q. field.
  intros H0. rewrite H0 in Hm. discriminate Hm.
Qed.

Lemma Qmax_cases (x y : Q) :
  (Qmax x y = x \/ Qmax x y = y) /\ (x <= Qmax x y)%Q /\ (y <= Qmax x y)%Q.
Proof.
  unfold Qmax. destruct (Qle_bool x y) eqn:E.
  - apply Qle_bool_iff in E. repeat split; [now right | exact E | apply Qle_refl].
  - assert (Hlt : (y < x)%Q).
    { apply Qnot_le_lt. intros H. apply Qle_bool_iff in H. congruence. }
    repeat split; [now left | apply Qle_refl | apply Qlt_le_weak, Hlt].
Qed.

Lemma fold_Qmax (l : list Q) :
  forall v : Q,
    (fold_left Qmax l v = v \/ In (fold_left Qmax l v) l) /\
    (v <= fold_left Qmax l v)%Q /\
    (forall x, In x l -> (x <= fold_left Qmax l v)%Q).
Proof.
  induction l as [| y l IH]; intros v; simpl.
  - repeat split; [now left | apply Qle_refl | intros x []].
  - destruct (IH (Qmax v y)) as (Hin & Hge & Hall).
    destruct (Qmax_cases v y) as (Hc & Hv & Hy).
    repeat split.
    + destruct Hin as [Hin | Hin]; [| right; right; exact Hin].
      rewrite Hin. destruct Hc as [-> | ->]; [now left | right; now left].
    + eapply Qle_trans; [exact Hv | exact Hge].
    + intros x [<- | Hx].
      * eapply Qle_trans; [exact Hy | exact Hge].
      * apply Hall, Hx.
Qed.

(** [img.max()] is an element of the array and bounds every element. *)
Lemma np_max_spec (a : list (list (list Q))) (m : Q) :
  np_max a = inr m ->
  In m (flatten a) /\ forall v, In v (flatten a) -> (v <= m)%Q.
Proof.
  unfold np_max. destruct (flatten a) as [| v rest]; [discriminate |].
  intros H. injection H as <-.
  destruct (fold_Qmax rest v) as (Hin & Hge & Hall). split.
  - destruct Hin as [-> | Hin]; [now left | right; exact Hin].
  - intros x [<- | Hx]; [exact Hge | apply Hall, Hx].
Qed.


Lemma ensure_uint8_uint8 (img : list (list (list Q))) :
  ensure_uint8 uint8 img = inr (mk_ndarray uint8 img).
Proof. reflexivity. Qed.

Lemma ensure_uint8_rescale (dt : DType) (img : list (list (list Q))) (m : Q) :
  dt <> uint8 -> np_max img = inr m -> (255 < m)%Q ->
  ensure_uint8 dt img =
  inr (mk_ndarray uint8 (map3 (fun v => to_uint8 (v / m * 255)) img)).
Proof.
  intros Hdt Hmax Hm. unfold ensure_uint8.
  assert (Hu : is_uint8 dt = false) by (destruct dt; simpl; congruence).
  rewrite Hu, Hmax. simpl.
  assert (Hb : Qle_bool m 255 = false).
  { destruct (Qle_bool m 255) eqn:E; [| reflexivity].
    apply Qle_bool_iff in E. exfalso. exact (Qlt_not_le _ _ Hm E). }
  rewrite Hb. reflexivity.
Qed.

Lemma ensure_uint8_cast (dt : DType) (img : list (list (list Q))) (m : Q) :
  dt <> uint8 -> np_max img = inr m -> (m <= 255)%Q ->
  ensure_uint8 dt img = inr (mk_ndarray uint8 (map3 to_uint8 img)).
Proof.
  intros Hdt Hmax Hm. unfold ensure_uint8.
  assert (Hu : is_uint8 dt = false) by (destruct dt; simpl; congruence).
  rewrite Hu, Hmax. simpl.
  apply Qle_bool_iff in Hm. rewrite Hm. reflexivity.
Qed.

End RasterLoader.

Section BitDepth.
Import Py Sys Georef Samples.

Lemma load_gray16 :
  fst (load_geotiff_for_detection sample_decode "/data/gray16.tif" disk) =
  inr (mk_ndarray uint8 [[[100; 100; 100]; [200; 200; 200]]]%Q,
       identity_transform, "EPSG:4326").
Proof.
  rewrite (load_opened sample_decode disk "/data/gray16.tif" "gray16" gray16)
    by reflexivity.
  reflexivity.
Qed.

(** C6, as stated, fails: a 16-bit raster whose values stay below 256 is
    not rescaled; its largest value, 200, stays 200 instead of becoming
    255. *)
Lemma loader_leaves_small_16bit_values :
  src_dtype gray16 <> uint8 /\
  read_rgb gray16 = inr (stack3 [[100; 200]]%Q) /\
  np_max (stack3 [[100; 200]]%Q) = inr 200%Q /\
  fst (load_geotiff_for_detection sample_decode "/data/gray16.tif" disk) =
    inr (mk_ndarray uint8 [[[100; 100; 100]; [200; 200; 200]]]%Q,
         identity_transform, "EPSG:4326") /\
  fst (load_geotiff_for_detection sample_decode "/data/gray16.tif" disk) <>
    inr (mk_ndarray uint8
           (map3 (fun v => to_uint8 (v / 200 * 255)) (stack3 [[100; 200]]%Q)),
         identity_transform, "EPSG:4326").
Proof.
  split; [discriminate |].
  split; [reflexivity |].
  split; [reflexivity |].
  split; [exact load_gray16 |].
  rewrite load_gray16. intros H. injection H as H. vm_compute in H.
  discriminate H.
Qed.

(** C6, amended: an 8-bit unsigned raster passes through unchanged; for any
    other datatype the buffer is rescaled linearly, so that its maximum
    maps to 255, and then truncated to 8 bits only when that maximum
    exceeds 255; when the maximum is at most 255 the values are cast to
    8 bits as they are. *)
Theorem loader_bit_depth
    (gdal_decode : string -> option Dataset)
    (w : World) (path bytes : string) (src : Dataset)
    (raw : list (list (list Q))) :
  files w !! path = Some bytes ->
  gdal_decode bytes = Some src ->
  read_rgb src = inr raw ->
  (src_dtype src = uint8 ->
   fst (load_geotiff_for_detection gdal_decode path w) =
   inr (mk_ndarray uint8 raw, src_transform src, src_crs src)) /\
  (src_dtype src <> uint8 ->
   forall m : Q,
     np_max raw = inr m ->
     (In m (flatten raw) /\ forall v, In v (flatten raw) -> (v <= m)%Q) /\
     ((255 < m)%Q ->
      fst (load_geotiff_for_detection gdal_decode path w) =
      inr (mk_ndarray uint8 (map3 (fun v => to_uint8 (v / m * 255)) raw),
           src_transform src, src_crs src) /\
      forall v, (v == m)%Q -> to_uint8 (v / m * 255) = 255%Q) /\
     ((m <= 255)%Q ->
      fst (load_geotiff_for_detection gdal_decode path w) =
      inr (mk_ndarray uint8 (map3 to_uint8 raw),
           src_transform src, src_crs src))).
Proof.
  intros Hfile Hdec Hraw.
  rewrite (load_opened gdal_decode w path bytes src Hfile Hdec).
  unfold load_from. rewrite Hraw. cbn [bind_exn fst].
  split.
  - intros ->. reflexivity.
  - intros Hdt m Hmax. split; [apply np_max_spec, Hmax |]. split.
    + intros Hm. rewrite (ensure_uint8_rescale _ _ m Hdt Hmax Hm).
      split; [reflexivity |]. intros v Hv. apply rescale_max; assumption.
    + intros Hm. rewrite (ensure_uint8_cast _ _ m Hdt Hmax Hm). reflexivity.
Qed.

Lemma loader_bit_depth_witness :
  fst (load_geotiff_for_detection sample_decode "/data/deep16.tif" disk) =
    inr (mk_ndarray uint8
           (map3 (fun v => to_uint8 (v / 1020 * 255))
                 (stack3 [[0; 510; 1020]]%Q)),
         identity_transform, "EPSG:4326") /\
  to_uint8 (1020 / 1020 * 255) = 255%Q /\
  fst (load_geotiff_for_detection sample_decode "/data/rgba8.tif" disk) =
    inr (mk_ndarray uint8 [[[10; 20; 30]]]%Q, identity_transform, "EPSG:4326").
Proof.
  destruct (loader_bit_depth sample_decode disk "/data/deep16.tif" "deep16"
              deep16 (stack3 [[0; 510; 1020]]%Q)
              eq_refl eq_refl eq_refl) as [_ Hdeep].
  destruct (Hdeep ltac:(discriminate) 1020%Q eq_refl) as (_ & Hscale & _).
  destruct (Hscale eq_refl) as [Hload Hmax].
  destruct (loader_bit_depth sample_decode disk "/data/rgba8.tif" "rgba8"
              rgba8 [[[10; 20; 30]]]%Q
              eq_refl eq_refl eq_refl) as [Hpass _].
  split; [exact Hload |].
  split; [apply Hmax; reflexivity |].
  exact (Hpass eq_refl).
Defined.

Example deep16_rescaled :
  map3 (fun v => to_uint8 (v / 1020 * 255)) (stack3 [[0; 510; 1020]]%Q) =
  [[[0; 0; 0]; [127; 127; 127]; [255; 255; 255]]]%Q.
Proof. reflexivity. Qed.

End BitDepth.

Section BandCount.
Import Py Sys Georef Samples Spec.






(** The normalisation changes values only: the result is 8-bit unsigned
    and is the input mapped through one function. *)
Lemma ensure_uint8_shape (dt : DType) (raw : list (list (list Q))) (img : ndarray) :
  ensure_uint8 dt raw = inr img ->
  dtype img = uint8 /\ exists f : Q -> Q, data img = map3 f raw.
Proof.
  unfold ensure_uint8. destruct (is_uint8 dt) eqn:Hu; simpl.
  - intros H. injection H as <-. simpl. split.
    + destruct dt; simpl in Hu; congruence.
    + exists (fun v => v). unfold map3.
      rewrite <- (map_id raw) at 1. apply map_ext. intros row.
      rewrite <- (map_id row) at 1. apply map_ext. intros px.
      symmetry. apply map_id.
  - destruct (np_max raw) as [e | m]; simpl; [discriminate |].
    destruct (Qle_bool m 255); simpl; intros H; injection H as <-;
      (split; [reflexivity | eauto]).
Qed.





End BandCount.

Section BandCountTheorem.
Import Py Sys Georef Samples Spec.









End BandCountTheorem.

(** ** Temporary files *)

Section Cleanup.
Import Py Sys Georef Samples.

Lemma cleanup_missing (p : string) (w : World) :
  files w !! p = None -> cleanup_temp_file p w = (inr tt, w).
Proof.
  intros Hnone. unfold cleanup_temp_file, try_except, os_path_exists.
  rewrite bool_decide_eq_false_2; [reflexivity |].
  rewrite Hnone. intros [x Hx]. discriminate Hx.
Qed.

Lemma cleanup_refused (p : string) (w : World) :
  is_Some (files w !! p) -> p ∈ undeletable w ->
  cleanup_temp_file p w = (inr tt, w).
Proof.
  intros Hsome Hlock. unfold cleanup_temp_file, try_except, os_path_exists.
  rewrite bool_decide_eq_true_2 by exact Hsome.
  unfold os_remove. destruct Hsome as [x ->].
  rewrite bool_decide_eq_true_2 by exact Hlock. reflexivity.
Qed.

Lemma cleanup_removes (p : string) (w : World) :
  is_Some (files w !! p) -> p ∉ undeletable w ->
  cleanup_temp_file p w = (inr tt, set_files (delete p (files w)) w).
Proof.
  intros Hsome Hfree. unfold cleanup_temp_file, try_except, os_path_exists.
  rewrite bool_decide_eq_true_2 by exact Hsome.
  unfold os_remove. destruct Hsome as [x ->].
  rewrite bool_decide_eq_false_2 by exact Hfree. reflexivity.
Qed.

(** The three ways a call can go. *)
Lemma cleanup_cases (p : string) (w : World) :
  (files w !! p = None /\ cleanup_temp_file p w = (inr tt, w)) \/
  (is_Some (files w !! p) /\ (p ∈ undeletable w) /\
   cleanup_temp_file p w = (inr tt, w)) \/
  (is_Some (files w !! p) /\ (p ∉ undeletable w) /\
   cleanup_temp_file p w = (inr tt, set_files (delete p (files w)) w)).
Proof.
  destruct (files w !! p) as [x |] eqn:Hp.
  - assert (Hsome : is_Some (files w !! p)) by (rewrite Hp; eauto).
    destruct (decide (p ∈ undeletable w)) as [Hlock | Hfree].
    + right; left. rewrite <- Hp.
      split; [exact Hsome |]. split; [exact Hlock |].
      apply cleanup_refused; assumption.
    + right; right. rewrite <- Hp.
      split; [exact Hsome |]. split; [exact Hfree |].
      apply cleanup_removes; assumption.
  - left. split; [reflexivity |]. apply cleanup_missing, Hp.
Qed.

(** C10: [cleanup_temp_file] returns normally on every path and every
    state.  A file that exists and can be removed is removed, and nothing
    else changes; a path that does not exist, or whose removal is refused,
    leaves the state as it was; a second call on the same path returns
    normally too and changes nothing more. *)
Theorem cleanup_temp_file_never_raises (p : string) (w : World) :
  exists w' : World,
    cleanup_temp_file p w = (inr tt, w') /\
    (files w !! p = None -> w' = w) /\
    (is_Some (files w !! p) -> p ∈ undeletable w -> w' = w) /\
    (is_Some (files w !! p) -> p ∉ undeletable w ->
     files w' !! p = None /\ w' = set_files (delete p (files w)) w) /\
    (forall q : string, q <> p -> files w' !! q = files w !! q) /\
    cleanup_temp_file p w' = (inr tt, w').
Proof.
  destruct (cleanup_cases p w)
    as [[Hnone Hrun] | [(Hsome & Hlock & Hrun) | (Hsome & Hfree & Hrun)]].
  - exists w. split; [exact Hrun |].
    split; [reflexivity |]. split; [reflexivity |].
    split; [intros [x Hx]; congruence |].
    split; [reflexivity | exact Hrun].
  - exists w. split; [exact Hrun |].
    split; [reflexivity |]. split; [reflexivity |].
    split; [intros _ Hfree; contradiction |].
    split; [reflexivity | exact Hrun].
  - exists (set_files (delete p (files w)) w). split; [exact Hrun |].
    split; [intros Hnone; destruct Hsome as [x Hx]; congruence |].
    split; [intros _ Hlock; contradiction |].
    split; [intros _ _; split; [apply lookup_delete_eq | reflexivity] |].
    split.
    + intros q Hq. simpl. apply lookup_delete_ne. congruence.
    + apply cleanup_missing. simpl. apply lookup_delete_eq.
Qed.

Lemma cleanup_temp_file_never_raises_witness :
  exists w' : World,
    cleanup_temp_file "/data/gray16.tif" disk = (inr tt, w') /\
    files w' !! "/data/gray16.tif" = None /\
    files w' !! "/data/deep16.tif" = Some "deep16" /\
    cleanup_temp_file "/data/gray16.tif" w' = (inr tt, w') /\
    cleanup_temp_file "/data/absent.tif" disk = (inr tt, disk).
Proof.
  destruct (cleanup_temp_file_never_raises "/data/gray16.tif" disk)
    as (w' & Hrun & _ & _ & Hdel & Hother & Hagain).
  destruct (cleanup_temp_file_never_raises "/data/absent.tif" disk)
    as (w2 & Hrun2 & Hnone2 & _).
  exists w'. split; [exact Hrun |].
  split; [apply Hdel; [vm_compute; eauto | apply not_elem_of_empty] |].
  split; [rewrite Hother by discriminate; reflexivity |].
  split; [exact Hagain |].
  rewrite Hrun2. f_equal. apply Hnone2. reflexivity.
Defined.

End Cleanup.

(** ** The /detect handler and its staged file *)

Section StagedFile.
Import Py Sys Georef Detector Main Samples.

Variable gdal_decode : string -> option Dataset.
Variable cvtColor_RGB2GRAY : ndarray -> list (list Q).
Variable detectMarkers :
  Dictionary -> DetectorParameters -> list (list Q) -> exn + Detections.

Lemma mkstemp_inner_fresh (dir suffix : string) (fs : gmap string string)
    (names rest : list string) (p : string) :
  mkstemp_inner dir suffix names fs = Some (p, rest) ->
  fs !! p = None /\ exists n, p = dir +:+ "/tmp" +:+ n +:+ suffix.
Proof.
  induction names as [| n names IH]; simpl; [discriminate |].
  destruct (fs !! (dir +:+ "/tmp" +:+ n +:+ suffix)) eqn:Hp.
  - exact IH.
  - intros H. injection H as <- <-. split; [exact Hp | eauto].
Qed.

(** What a successful download did: it picked a path that did not exist and
    stored the body of a 2xx response there. *)
Lemma download_geotiff_inv (url : string) (w w1 : World) (p : string) :
  download_geotiff url w = (inr p, w1) ->
  files w !! p = None /\
  truthy (Some p) = true /\
  undeletable w1 = undeletable w /\
  exists r, remote w !! url = Some r /\ files w1 = <[p := content r]> (files w).
Proof.
  unfold download_geotiff, bind, NamedTemporaryFile, client_get.
  destruct (mkstemp_inner "/tmp/aruco" ".tif" (rand_names w) (files w))
    as [[p0 rest] |] eqn:Htmp; [| discriminate].
  destruct (mkstemp_inner_fresh _ _ _ _ _ _ Htmp) as [Hfresh [n Hn]].
  simpl. destruct (remote w !! url) as [r |] eqn:Hr; [| discriminate].
  unfold raise_for_status.
  destruct ((200 <=? status_code r)%Z && (status_code r <? 300)%Z);
    [| discriminate].
  simpl. intros H. injection H as <- <-.
  split; [exact Hfresh |]. split; [rewrite Hn; reflexivity |].
  split; [reflexivity |]. exists r. split; [reflexivity |].
  simpl. apply insert_insert_eq.
Qed.

(** Loading and detecting leave the world as it is. *)
Lemma process_world (request : DetectionRequest) (p : string) (w : World) :
  snd (process gdal_decode cvtColor_RGB2GRAY detectMarkers request p w) = w.
Proof.
  unfold process, load_geotiff_for_detection, bind, rasterio_open, lift, ret.
  destruct (files w !! p) as [bytes |]; [| reflexivity].
  destruct (gdal_decode bytes) as [src |]; [| reflexivity].
  destruct (load_from src) as [e | [[image transform] crs]]; [reflexivity |].
  destruct (detect_aruco_markers _ _ _ _ _) as [e | raw]; [reflexivity |].
  destruct (validate_all raw); reflexivity.
Qed.

Lemma detect_markers_downloaded (request : DetectionRequest)
    (w w1 : World) (p : string) :
  download_geotiff (geotiff_url request) w = (inr p, w1) ->
  detect_markers gdal_decode cvtColor_RGB2GRAY detectMarkers request w =
  (handler_outcome
     (fst (process gdal_decode cvtColor_RGB2GRAY detectMarkers request p w1)),
   snd (cleanup_temp_file p w1)).
Proof.
  intros Hdl. destruct (download_geotiff_inv _ _ _ _ Hdl) as (_ & Htruthy & _).
  unfold detect_markers. rewrite Hdl.
  pose proof (process_world request p w1) as Hw.
  destruct (process gdal_decode cvtColor_RGB2GRAY detectMarkers request p w1)
    as [outcome w2].
  simpl in Hw. subst w2. rewrite Htruthy. reflexivity.
Qed.

Lemma detect_markers_not_downloaded (request : DetectionRequest)
    (w w1 : World) (e : exn) :
  download_geotiff (geotiff_url request) w = (inl e, w1) ->
  detect_markers gdal_decode cvtColor_RGB2GRAY detectMarkers request w =
  (inl (HTTPException 500 ("Detection failed: " +:+ str_exn e)), w1).
Proof. intros Hdl. unfold detect_markers. rewrite Hdl. reflexivity. Qed.

End StagedFile.

Section StagedFileTheorems.
Import Py Sys Georef Detector Main Samples.

Lemma download_online :
  download_geotiff "https://maps.example/ortho.tif" online =
  (inr staged_path,
   mkWorld {[staged_path := "gray16"]} ∅ [] (remote online)).
Proof. vm_compute. reflexivity. Qed.


Lemma download_gone :
  download_geotiff "https://maps.example/gone.tif" online =
  (inl (HTTPStatusError 404),
   mkWorld {[staged_path := ""]} ∅ [] (remote online)).
Proof. vm_compute. reflexivity. Qed.

End StagedFileTheorems.

Section StagedFileClaims.
Import Py Sys Georef Detector Main Samples.

(** A run whose download is answered with 404 has already created its
    staged file, and returns without removing it. *)
Lemma detect_markers_retrieval_failure_keeps_file :
  files online !! staged_path = None /\
  exists w' : World,
    detect_markers sample_decode no_gray finds_none gone_request online =
      (inl (HTTPException 500 "Detection failed: HTTP status error"), w') /\
    files w' !! staged_path = Some "".
Proof.
  split; [reflexivity |].
  rewrite (detect_markers_not_downloaded sample_decode no_gray finds_none
             gone_request online _ _ download_gone).
  eexists. split; reflexivity.
Qed.




(** The three exits after a successful download, on the sample server. *)
Example run_succeeds :
  fst (detect_markers sample_decode no_gray finds_none ortho_request online) =
  inr (mkDetectionResponse true 0 []
         "DICT_7X7_1000" "https://maps.example/ortho.tif" None).
Proof.
  rewrite (detect_markers_downloaded sample_decode no_gray finds_none
             ortho_request online _ staged_path download_online).
  vm_compute. reflexivity.
Qed.

Example run_fails_in_detection :
  exists detail : string,
    fst (detect_markers sample_decode no_gray finds_none
           unknown_dictionary_request online) =
    inl (HTTPException 500 detail) /\
    Py.occurs_in "Unknown ArUco dictionary: DICT_8X8_50" detail.
Proof.
  rewrite (detect_markers_downloaded sample_decode no_gray finds_none
             unknown_dictionary_request online _ staged_path download_online).
  eexists. split; [vm_compute; reflexivity |].
  eexists "Detection failed: ", _. reflexivity.
Qed.

End StagedFileClaims.

(** * Further properties of the code *)

(** ** Confidence: its extreme values and its invariances *)

Section ConfidenceExtremes.
Import Georef Detector Samples.
Local Open Scope R_scope.

Lemma side_length_zero (p q : Point) : side_length p q = 0 -> p = q.
Proof.
  unfold side_length. intros H.
  pose proof (pow2_ge_0 (fst q - fst p)) as H1.
  pose proof (pow2_ge_0 (snd q - snd p)) as H2.
  apply sqrt_eq_0 in H; [| lra].
  assert (Hx : (fst q - fst p) ^ 2 = 0) by lra.
  assert (Hy : (snd q - snd p) ^ 2 = 0) by lra.
  simpl in Hx, Hy. apply Rmult_integral in Hx, Hy.
  destruct p as [px py], q as [qx qy]. simpl in *.
  f_equal; [destruct Hx | destruct Hy]; lra.
Qed.

Lemma mean_sides_zero (c : Corners) :
  Np.mean (side_lengths c) = 0 <->
  corner0 c = corner1 c /\ corner1 c = corner2 c /\ corner2 c = corner3 c.
Proof.
  rewrite side_lengths_unfold, mean4. split.
  - intros H.
    pose proof (side_length_nonneg (corner0 c) (corner1 c)).
    pose proof (side_length_nonneg (corner1 c) (corner2 c)).
    pose proof (side_length_nonneg (corner2 c) (corner3 c)).
    pose proof (side_length_nonneg (corner3 c) (corner0 c)).
    repeat split; apply side_length_zero; lra.
  - intros (H01 & H12 & H23). rewrite <- H23, <- H12, <- H01.
    rewrite !side_length_same. lra.
Qed.

(** X1: the confidence is 0 exactly when the four corners coincide; for
    every other corner array it is strictly positive. *)
Theorem calculate_confidence_zero_iff_coincident (c : Corners) :
  (calculate_confidence c = 0 <->
   corner0 c = corner1 c /\ corner1 c = corner2 c /\ corner2 c = corner3 c) /\
  (calculate_confidence c <> 0 -> 0 < calculate_confidence c).
Proof.
  split.
  - rewrite <- mean_sides_zero. split.
    + intros Hzero.
      destruct (Req_dec (Np.mean (side_lengths c)) 0) as [Hm | Hm];
        [exact Hm |].
      rewrite (calculate_confidence_nonzero_mean c Hm) in Hzero.
      pose proof (exp_pos (- 5 * (Np.var (side_lengths c) /
                                    Np.mean (side_lengths c) ^ 2))). lra.
    + apply calculate_confidence_zero_mean.
  - intros Hne. destruct (calculate_confidence_range c). lra.
Qed.



End ConfidenceExtremes.

Section GeometryInvariance.
Import Georef Detector Samples Spec.
Local Open Scope R_scope.











End GeometryInvariance.

(** ** Rotation: sign and the values on the axes *)

Section RotationAxes.
Import Georef Detector Samples Spec.
Local Open Scope R_scope.
















End RotationAxes.

(** ** Coordinate mapper: pixels as cells *)

Section PixelCells.
Import Georef Detector Samples Spec.
Local Open Scope R_scope.

Lemma int_in_cell (z : Z) (d : R) :
  (0 <= z)%Z -> 0 <= d < 1 -> Py.int (IZR z + d) = z.
Proof.
  intros Hz Hd. apply IZR_le in Hz.
  apply int_unique_nonneg; lra.
Qed.

Lemma int_near_zero (x : R) : - 1 < x < 1 -> Py.int x = 0%Z.
Proof.
  intros [Hlo Hhi]. destruct (Rle_or_lt 0 x) as [Hp | Hn].
  - apply int_unique_nonneg; lra.
  - apply int_unique_neg; lra.
Qed.

(** X5: the mapper sees a pixel position only through its integer parts.
    Every point of the cell [col, col+1) x [row, row+1) of a non-negative
    pixel index gets the coordinates of that pixel's centre, and because
    truncation goes toward zero the whole open square (-1, 1) x (-1, 1)
    counts as pixel (0, 0). *)
Theorem pixel_to_coords_constant_on_cell (t : Affine) :
  (forall px py px' py' : R,
     Py.int px = Py.int px' -> Py.int py = Py.int py' ->
     pixel_to_coords t px py = pixel_to_coords t px' py') /\
  (forall (col row : Z) (dx dy : R),
     (0 <= col)%Z -> (0 <= row)%Z -> 0 <= dx < 1 -> 0 <= dy < 1 ->
     pixel_to_coords t (IZR col + dx) (IZR row + dy) = xy t row col center) /\
  (forall px py : R,
     - 1 < px < 1 -> - 1 < py < 1 ->
     pixel_to_coords t px py = xy t 0 0 center).
Proof.
  split; [| split].
  - intros px py px' py' Hx Hy. rewrite !pixel_to_coords_unfold, Hx, Hy.
    reflexivity.
  - intros col row dx dy Hc Hr Hdx Hdy.
    rewrite pixel_to_coords_unfold, !int_in_cell by assumption. reflexivity.
  - intros px py Hx Hy.
    rewrite pixel_to_coords_unfold, !int_near_zero by assumption. reflexivity.
Qed.



End PixelCells.

(** ** Ordering: what the sort makes of the detector's order *)

Section SortFacts.
Import Georef Detector Samples.
Local Open Scope Z_scope.

Variable A : Type.
Variable key : A -> Z.

Local Abbreviation by_key := (fun x y : A => key x <= key y).

(** Sorting a list that is already in order changes nothing. *)
Lemma list_sort_sorted_id (l : list A) :
  StronglySorted by_key l -> list_sort key l = l.
Proof.
  induction 1 as [| x l Hs IH Hall]; simpl; [reflexivity |].
  rewrite IH. destruct l as [| y l]; simpl; [reflexivity |].
  apply List.Forall_inv in Hall. simpl in Hall.
  apply Z.leb_le in Hall. rewrite Hall. reflexivity.
Qed.

(** Two sorted lists with the same elements and no repeated key are the
    same list. *)
Lemma sorted_perm_unique (l1 l2 : list A) :
  StronglySorted by_key l1 -> StronglySorted by_key l2 ->
  Permutation l1 l2 -> List.NoDup (map key l1) -> l1 = l2.
Proof.
  revert l2. induction l1 as [| x l1 IH]; intros l2 Hs1 Hs2 Hperm Hnd.
  - apply Permutation_nil in Hperm. now subst.
  - destruct l2 as [| y l2].
    { apply Permutation_sym, Permutation_nil in Hperm. discriminate. }
    apply StronglySorted_inv in Hs1 as [Hs1 Hall1].
    apply StronglySorted_inv in Hs2 as [Hs2 Hall2].
    rewrite List.Forall_forall in Hall1, Hall2.
    simpl in Hnd. apply List.NoDup_cons_iff in Hnd as [Hfresh Hnd].
    assert (Hxy : x = y).
    { assert (Hx : In x (y :: l2)).
      { apply (Permutation_in _ Hperm). now left. }
      assert (Hy : In y (x :: l1)).
      { apply (Permutation_in _ (Permutation_sym Hperm)). now left. }
      destruct Hx as [Hx | Hx]; [now symmetry |].
      destruct Hy as [Hy | Hy]; [exact Hy |].
      exfalso. apply Hfresh.
      specialize (Hall1 y Hy). specialize (Hall2 x Hx). simpl in *.
      replace (key x) with (key y) by lia. apply in_map, Hy. }
    subst y. f_equal. apply IH; try assumption.
    apply Permutation_cons_inv in Hperm. exact Hperm.
Qed.

Lemma list_sort_perm_unique (l1 l2 : list A) :
  Permutation l1 l2 -> List.NoDup (map key l1) ->
  list_sort key l1 = list_sort key l2.
Proof.
  intros Hperm Hnd. apply sorted_perm_unique.
  - apply list_sort_sorted.
  - apply list_sort_sorted.
  - eapply perm_trans; [apply Permutation_sym, list_sort_perm |].
    eapply perm_trans; [exact Hperm | apply list_sort_perm].
  - intros. eapply Permutation_NoDup; [| exact Hnd].
    apply Permutation_map, list_sort_perm.
Qed.

End SortFacts.

Section PipelineOrder.
Import Py Georef Detector Samples.

Variable cvtColor_RGB2GRAY : ndarray -> list (list Q).

Lemma detect_aruco_markers_value
    (detectMarkers :
       Dictionary -> DetectorParameters -> list (list Q) -> exn + Detections)
    (image : ndarray) (transform : Affine) (dictionary_name : string)
    (aruco_dict : Dictionary) (found : Detections) :
  get_aruco_dictionary dictionary_name = inr aruco_dict ->
  detectMarkers aruco_dict tuned_parameters (cvtColor_RGB2GRAY image)
    = inr found ->
  Spec.ids_match_corners found ->
  detect_aruco_markers cvtColor_RGB2GRAY detectMarkers
    image transform dictionary_name =
  inr (list_sort marker_id
         (map (fun d => assemble transform (fst d) (snd d))
              (Spec.raw_detections found))).
Proof.
  intros Hdict Hfound Hmatch. unfold detect_aruco_markers.
  rewrite Hdict. cbn [bind_exn]. rewrite Hfound. cbn [bind_exn].
  rewrite (collect_raw_detections transform found Hmatch). reflexivity.
Qed.

Lemma map_marker_id_assembled (t : Affine) (ds : list (Z * Corners)) :
  map marker_id (map (fun d => assemble t (fst d) (snd d)) ds) = map fst ds.
Proof.
  induction ds as [| d ds IH]; cbn [map]; [reflexivity |].
  rewrite marker_id_assemble, IH. reflexivity.
Qed.

(** X7: when the detector reports every identifier once, the result does
    not depend on the order in which it reports the detections: two
    detector outputs that hold the same detections give the same list. *)
Theorem detect_aruco_markers_order_independent
    (detect1 detect2 :
       Dictionary -> DetectorParameters -> list (list Q) -> exn + Detections)
    (image : ndarray) (transform : Affine) (dictionary_name : string)
    (aruco_dict : Dictionary) (found1 found2 : Detections) :
  get_aruco_dictionary dictionary_name = inr aruco_dict ->
  detect1 aruco_dict tuned_parameters (cvtColor_RGB2GRAY image) = inr found1 ->
  detect2 aruco_dict tuned_parameters (cvtColor_RGB2GRAY image) = inr found2 ->
  Spec.ids_match_corners found1 ->
  Spec.ids_match_corners found2 ->
  Permutation (Spec.raw_detections found1) (Spec.raw_detections found2) ->
  List.NoDup (map fst (Spec.raw_detections found1)) ->
  detect_aruco_markers cvtColor_RGB2GRAY detect1
    image transform dictionary_name =
  detect_aruco_markers cvtColor_RGB2GRAY detect2
    image transform dictionary_name.
Proof.
  intros Hdict H1 H2 Hm1 Hm2 Hperm Hnd.
  rewrite (detect_aruco_markers_value detect1 _ _ _ _ _ Hdict H1 Hm1).
  rewrite (detect_aruco_markers_value detect2 _ _ _ _ _ Hdict H2 Hm2).
  f_equal. apply list_sort_perm_unique.
  - apply Permutation_map, Hperm.
  - rewrite map_marker_id_assembled. exact Hnd.
Qed.

Lemma sorted_assembled (t : Affine) (ds : list (Z * Corners)) :
  StronglySorted Z.le (map fst ds) ->
  StronglySorted (fun m1 m2 => (marker_id m1 <= marker_id m2)%Z)
    (map (fun d => assemble t (fst d) (snd d)) ds).
Proof.
  induction ds as [| d ds IH]; cbn [map]; intros Hs; [constructor |].
  apply StronglySorted_inv in Hs as [Hs Hall]. constructor; [apply IH, Hs |].
  rewrite List.Forall_forall in Hall |- *. intros m Hm.
  apply in_map_iff in Hm as (d' & <- & Hd').
  rewrite !marker_id_assemble. apply Hall, in_map, Hd'.
Qed.

(** X8: when the detector reports its detections with ascending
    identifiers, the result lists the markers in exactly the detector's
    order. *)
Theorem detect_aruco_markers_keeps_ascending_input
    (detectMarkers :
       Dictionary -> DetectorParameters -> list (list Q) -> exn + Detections)
    (image : ndarray) (transform : Affine) (dictionary_name : string)
    (aruco_dict : Dictionary) (found : Detections) :
  get_aruco_dictionary dictionary_name = inr aruco_dict ->
  detectMarkers aruco_dict tuned_parameters (cvtColor_RGB2GRAY image)
    = inr found ->
  Spec.ids_match_corners found ->
  StronglySorted Z.le (map fst (Spec.raw_detections found)) ->
  detect_aruco_markers cvtColor_RGB2GRAY detectMarkers
    image transform dictionary_name =
  inr (map (fun d => assemble transform (fst d) (snd d))
           (Spec.raw_detections found)).
Proof.
  intros Hdict Hfound Hmatch Hasc.
  rewrite (detect_aruco_markers_value detectMarkers _ _ _ _ _ Hdict Hfound Hmatch).
  f_equal. apply (list_sort_sorted_id Marker marker_id).
  apply sorted_assembled, Hasc.
Qed.

End PipelineOrder.

Section PipelineOrderWitnesses.
Import Py Georef Detector Samples.

Lemma detect_aruco_markers_order_independent_witness :
  detect_aruco_markers no_gray finds_5_then_2
    (mk_ndarray uint8 []) identity_transform "DICT_4X4_50" =
  detect_aruco_markers no_gray finds_2_then_5
    (mk_ndarray uint8 []) identity_transform "DICT_4X4_50".
Proof.
  apply (detect_aruco_markers_order_independent no_gray
           finds_5_then_2 finds_2_then_5 (mk_ndarray uint8 [])
           identity_transform "DICT_4X4_50" (mkDictionary DICT_4X4_50)
           (mkDetections [square10; upside_down] (Some [5; 2]%Z))
           (mkDetections [upside_down; square10] (Some [2; 5]%Z)));
    try reflexivity.
  - apply perm_swap.
  - cbn. apply List.NoDup_cons; [intros [H | []]; discriminate H |].
    apply List.NoDup_cons; [intros [] | apply List.NoDup_nil].
Defined.

Lemma detect_aruco_markers_keeps_ascending_input_witness :
  detect_aruco_markers no_gray finds_2_then_5
    (mk_ndarray uint8 []) identity_transform "DICT_4X4_50" =
  inr [assemble identity_transform 2 upside_down;
       assemble identity_transform 5 square10].
Proof.
  apply (detect_aruco_markers_keeps_ascending_input no_gray
           finds_2_then_5 (mk_ndarray uint8 [])
           identity_transform "DICT_4X4_50" (mkDictionary DICT_4X4_50)
           (mkDetections [upside_down; square10] (Some [2; 5]%Z)));
    try reflexivity.
  repeat constructor; simpl; lia.
Defined.

End PipelineOrderWitnesses.

(** ** The pipeline's failures *)

Section PipelineFailures.
Import Py Georef Detector Samples.

Variable cvtColor_RGB2GRAY : ndarray -> list (list Q).
Variable detectMarkers :
  Dictionary -> DetectorParameters -> list (list Q) -> exn + Detections.




End PipelineFailures.

(** ** Validation of the response models *)

Section Validation.
Import Py Sys Georef Detector Main Samples.
Import Spec (valid_confidence).
Local Open Scope R_scope.

Lemma DetectedMarker_accepts (m : Marker) :
  valid_confidence m -> DetectedMarker m = inr m.
Proof.
  intros [Hlo Hhi]. unfold DetectedMarker.
  destruct (Rle_dec 0 (confidence m)); [| contradiction].
  destruct (Rle_dec (confidence m) 1); [reflexivity | contradiction].
Qed.



Lemma validate_all_accepts (ms : list Marker) :
  List.Forall valid_confidence ms -> validate_all ms = inr ms.
Proof.
  induction 1 as [| m ms Hm Hall IH]; simpl; [reflexivity |].
  rewrite (DetectedMarker_accepts m Hm). cbn [bind_exn]. rewrite IH.
  reflexivity.
Qed.

Lemma assemble_valid (t : Affine) (id : Z) (c : Corners) :
  valid_confidence (assemble t id c).
Proof.
  unfold valid_confidence. rewrite confidence_assemble.
  apply (round_between _ 4 0 1). apply calculate_confidence_range.
Qed.

Lemma collect_valid (t : Affine) (corners : list Corners) (ids : list Z) :
  forall (i : nat) (acc ms : list Marker),
    collect t corners i ids acc = inr ms ->
    List.Forall valid_confidence acc -> List.Forall valid_confidence ms.
Proof.
  induction ids as [| id ids IH]; intros i acc ms; simpl.
  - intros H. injection H as <-. auto.
  - destruct (corners !! i) as [c |]; [| discriminate].
    intros H Hacc. apply (IH _ _ _ H).
    apply List.Forall_app. split; [exact Hacc |].
    constructor; [apply assemble_valid | constructor].
Qed.

Lemma detect_aruco_markers_valid
    (cvtColor_RGB2GRAY : ndarray -> list (list Q))
    (detectMarkers :
       Dictionary -> DetectorParameters -> list (list Q) -> exn + Detections)
    (image : ndarray) (transform : Affine) (dictionary_name : string)
    (markers : list Marker) :
  detect_aruco_markers cvtColor_RGB2GRAY detectMarkers
    image transform dictionary_name = inr markers ->
  List.Forall valid_confidence markers /\
  StronglySorted (fun m1 m2 => (marker_id m1 <= marker_id m2)%Z) markers.
Proof.
  unfold detect_aruco_markers.
  destruct (get_aruco_dictionary dictionary_name) as [e | aruco_dict];
    cbn [bind_exn]; [discriminate |].
  destruct (detectMarkers _ _ _) as [e | found]; cbn [bind_exn];
    [discriminate |].
  destruct (match det_ids found with
            | Some ids => collect transform (det_corners found) 0 ids []
            | None => inr []
            end) as [e | raw] eqn:Hraw; cbn [bind_exn]; [discriminate |].
  intros H. injection H as <-. split.
  - apply (Permutation_Forall (list_sort_perm Marker marker_id raw)).
    destruct (det_ids found) as [ids |].
    + apply (collect_valid _ _ _ _ _ _ Hraw). constructor.
    + injection Hraw as <-. constructor.
  - apply (list_sort_sorted Marker marker_id).
Qed.

(** X10: the response model's bounds on [confidence] ([ge=0], [le=1]) never
    reject a marker that [detect_aruco_markers] produced: the conversion
    of its result into [DetectedMarker] objects always succeeds and keeps
    the list as it is. *)
Theorem detected_markers_always_validate
    (cvtColor_RGB2GRAY : ndarray -> list (list Q))
    (detectMarkers :
       Dictionary -> DetectorParameters -> list (list Q) -> exn + Detections)
    (image : ndarray) (transform : Affine) (dictionary_name : string)
    (raw_markers : list Marker) :
  detect_aruco_markers cvtColor_RGB2GRAY detectMarkers
    image transform dictionary_name = inr raw_markers ->
  validate_all raw_markers = inr raw_markers.
Proof.
  intros Hrun. apply validate_all_accepts.
  apply (detect_aruco_markers_valid _ _ _ _ _ _ Hrun).
Qed.

Lemma detected_markers_always_validate_witness :
  validate_all
    (list_sort marker_id
       (map (fun d => assemble identity_transform (fst d) (snd d))
            (Spec.raw_detections three_found))) =
  inr (list_sort marker_id
         (map (fun d => assemble identity_transform (fst d) (snd d))
              (Spec.raw_detections three_found))).
Proof.
  apply (detected_markers_always_validate no_gray finds_three
           (mk_ndarray uint8 []) identity_transform "DICT_4X4_50").
  reflexivity.
Defined.

End Validation.

(** ** Retrieval *)

Section Retrieval.
Import Py Sys Georef Detector Main Samples.

(** Every way a download can go, by the state it starts from. *)
Lemma download_geotiff_cases (url : string) (w : World) :
  match mkstemp_inner "/tmp/aruco" ".tif" (rand_names w) (files w) with
  | None =>
      download_geotiff url w = (inl FileExistsError, set_rand_names [] w)
  | Some (p, rest) =>
      let staged := set_files (<[p := ""]> (files w)) (set_rand_names rest w) in
      files w !! p = None /\
      (exists n, p = "/tmp/aruco/tmp" +:+ n +:+ ".tif") /\
      match remote w !! url with
      | None => download_geotiff url w = (inl TransportError, staged)
      | Some r =>
          if is_2xx r then
            download_geotiff url w =
            (inr p, set_files (<[p := content r]> (files w))
                      (set_rand_names rest w))
          else
            download_geotiff url w =
            (inl (HTTPStatusError (status_code r)), staged)
      end
  end.
Proof.
  unfold download_geotiff, bind, NamedTemporaryFile, client_get.
  destruct (mkstemp_inner "/tmp/aruco" ".tif" (rand_names w) (files w))
    as [[p rest] |] eqn:Htmp; [| reflexivity].
  destruct (mkstemp_inner_fresh _ _ _ _ _ _ Htmp) as [Hfresh [n Hn]].
  cbv zeta. split; [exact Hfresh |]. split.
  { exists n. rewrite Hn. reflexivity. }
  cbn [remote set_files set_rand_names].
  destruct (remote w !! url) as [r |]; [| reflexivity].
  unfold raise_for_status, is_2xx.
  destruct ((200 <=? status_code r)%Z && (status_code r <? 300)%Z);
    [| reflexivity].
  unfold ret, write_file, set_files, set_rand_names. simpl.
  rewrite insert_insert_eq. reflexivity.
Qed.

(** X11: a download that succeeds has stored the body of a 2xx response
    under a path that did not exist before, of the form
    /tmp/aruco/tmp<name>.tif, and has changed no other file. *)
Theorem download_geotiff_stores_body
    (url : string) (w w1 : World) (temp_path : string) :
  download_geotiff url w = (inr temp_path, w1) ->
  files w !! temp_path = None /\
  (exists n, temp_path = "/tmp/aruco/tmp" +:+ n +:+ ".tif") /\
  exists r : Response,
    remote w !! url = Some r /\
    (200 <= status_code r < 300)%Z /\
    files w1 = <[temp_path := content r]> (files w) /\
    undeletable w1 = undeletable w /\ remote w1 = remote w.
Proof.
  intros Hdl. pose proof (download_geotiff_cases url w) as Hcases.
  destruct (mkstemp_inner "/tmp/aruco" ".tif" (rand_names w) (files w))
    as [[p rest] |]; [| congruence].
  cbv zeta in Hcases. destruct Hcases as (Hfresh & Hname & Hrest).
  destruct (remote w !! url) as [r |]; [| congruence].
  destruct (is_2xx r) eqn:H2xx; [| congruence].
  rewrite Hrest in Hdl. injection Hdl as <- <-.
  split; [exact Hfresh |]. split; [exact Hname |].
  exists r. split; [reflexivity |]. split.
  - unfold is_2xx in H2xx. apply andb_true_iff in H2xx as [Hlo Hhi].
    apply Z.leb_le in Hlo. apply Z.ltb_lt in Hhi. lia.
  - repeat split.
Qed.

Lemma download_geotiff_stores_body_witness :
  files online !! staged_path = None /\
  (exists n, staged_path = "/tmp/aruco/tmp" +:+ n +:+ ".tif") /\
  exists r : Response,
    remote online !! "https://maps.example/ortho.tif" = Some r /\
    (200 <= status_code r < 300)%Z /\
    {[staged_path := "gray16"]} = <[staged_path := content r]> (files online) /\
    (∅ : gset string) = undeletable online /\ remote online = remote online.
Proof.
  exact (download_geotiff_stores_body _ _ _ _ download_online).
Defined.



End Retrieval.

(** ** The handler as a whole *)

Section Handler.
Import Py Sys Georef Detector Main Samples.
Import Spec (valid_confidence).

Variable gdal_decode : string -> option Dataset.
Variable cvtColor_RGB2GRAY : ndarray -> list (list Q).
Variable detectMarkers :
  Dictionary -> DetectorParameters -> list (list Q) -> exn + Detections.



Lemma download_geotiff_keeps_files (url : string) (w w1 : World)
    (r : exn + string) :
  download_geotiff url w = (r, w1) ->
  undeletable w1 = undeletable w /\
  (forall q v, files w !! q = Some v -> files w1 !! q = Some v) /\
  (forall p, r = inr p -> files w !! p = None).
Proof.
  intros Hdl. pose proof (download_geotiff_cases url w) as Hcases.
  destruct (mkstemp_inner "/tmp/aruco" ".tif" (rand_names w) (files w))
    as [[p rest] |].
  - cbv zeta in Hcases. destruct Hcases as (Hfresh & _ & Hrest).
    assert (Hkeep : forall s q v,
              files w !! q = Some v -> <[p := s]> (files w) !! q = Some v).
    { intros s q v Hq. rewrite lookup_insert_ne; [exact Hq |].
      intros ->. congruence. }
    destruct (remote w !! url) as [resp |]; [destruct (is_2xx resp) |];
      rewrite Hrest in Hdl; injection Hdl as <- <-;
      (split; [reflexivity |]); (split; [apply Hkeep |]);
      intros p' Hp'; congruence.
  - rewrite Hcases in Hdl. injection Hdl as <- <-.
    split; [reflexivity |]. split; [auto | discriminate].
Qed.

(** X14: a run never removes or changes a file that existed before it
    started, whatever its outcome: the only path it deletes is the one it
    created itself. *)
Theorem detect_markers_keeps_existing_files
    (request : DetectionRequest) (w : World) (q v : string) :
  files w !! q = Some v ->
  files (snd (detect_markers gdal_decode cvtColor_RGB2GRAY detectMarkers
                request w)) !! q = Some v.
Proof.
  intros Hq.
  destruct (download_geotiff (geotiff_url request) w) as [[e | p] w1] eqn:Hdl;
    destruct (download_geotiff_keeps_files _ _ _ _ Hdl) as (_ & Hkeep & Hfresh).
  - rewrite (detect_markers_not_downloaded gdal_decode cvtColor_RGB2GRAY
               detectMarkers request w w1 e Hdl). apply Hkeep, Hq.
  - rewrite (detect_markers_downloaded gdal_decode cvtColor_RGB2GRAY
               detectMarkers request w w1 p Hdl). cbn [snd].
    assert (Hne : p <> q).
    { intros ->. rewrite (Hfresh q eq_refl) in Hq. discriminate. }
    destruct (cleanup_cases p w1)
      as [[_ ->] | [(_ & _ & ->) | (_ & _ & ->)]]; cbn [snd].
    + apply Hkeep, Hq.
    + apply Hkeep, Hq.
    + simpl. rewrite lookup_delete_ne by exact Hne. apply Hkeep, Hq.
Qed.


End Handler.

Section HandlerWitnesses.
Import Py Sys Georef Detector Main Samples.

Lemma detect_markers_keeps_existing_files_witness :
  files (snd (detect_markers sample_decode no_gray finds_none
                (mkDetectionRequest "https://maps.example/ortho.tif"
                   "DICT_7X7_1000" None)
                disk)) !! "/data/gray16.tif" = Some "gray16".
Proof.
  apply (detect_markers_keeps_existing_files sample_decode no_gray finds_none).
  reflexivity.
Defined.


End HandlerWitnesses.

(** ** Bit depth: the range and the order of the normalised values *)

Section NormalisedValues.
Import Py Sys Georef Samples.

Lemma flatten_map3 (f : Q -> Q) (a : list (list (list Q))) :
  flatten (map3 f a) = map f (flatten a).
Proof.
  unfold flatten, map3. rewrite map_map.
  induction a as [| row a IH]; simpl; [reflexivity |].
  rewrite map_app, <- IH. f_equal.
  clear IH. induction row as [| px row IH]; simpl; [reflexivity |].
  rewrite map_app, IH. reflexivity.
Qed.

Lemma to_uint8_range (q : Q) :
  exists z : Z, to_uint8 q = inject_Z z /\ (0 <= z <= 255)%Z.
Proof.
  exists (Qtrunc q mod 256)%Z. split; [reflexivity |].
  pose proof (Z.mod_pos_bound (Qtrunc q) 256 ltac:(lia)). lia.
Qed.

(** X16: whenever the loader converts a buffer that is not 8-bit unsigned,
    the result is an 8-bit buffer of the same shape whose every value is a
    whole number from 0 to 255. *)
Theorem ensure_uint8_range
    (img_dtype : DType) (img : list (list (list Q))) (out : ndarray) :
  img_dtype <> uint8 ->
  ensure_uint8 img_dtype img = inr out ->
  dtype out = uint8 /\
  (exists f : Q -> Q, data out = map3 f img) /\
  forall v : Q,
    In v (flatten (data out)) ->
    exists z : Z, v = inject_Z z /\ (0 <= z <= 255)%Z.
Proof.
  intros Hdt Hrun.
  destruct (ensure_uint8_shape _ _ _ Hrun) as [Hu8 Hshape].
  split; [exact Hu8 |]. split; [exact Hshape |].
  unfold ensure_uint8 in Hrun.
  assert (Hu : is_uint8 img_dtype = false)
    by (destruct img_dtype; simpl; congruence).
  rewrite Hu in Hrun. simpl in Hrun.
  destruct (np_max img) as [e | m]; simpl in Hrun; [discriminate |].
  destruct (Qle_bool m 255); simpl in Hrun; injection Hrun as <-;
    intros v Hv; simpl in Hv; rewrite flatten_map3 in Hv;
    apply in_map_iff in Hv as (x & <- & _); apply to_uint8_range.
Qed.

Lemma ensure_uint8_range_witness :
  dtype (mk_ndarray uint8 [[[100; 100; 100]; [200; 200; 200]]]%Q) = uint8 /\
  (exists f : Q -> Q,
     [[[100; 100; 100]; [200; 200; 200]]]%Q =
     map3 f (stack3 [[100; 200]]%Q)) /\
  forall v : Q,
    In v (flatten [[[100; 100; 100]; [200; 200; 200]]]%Q) ->
    exists z : Z, v = inject_Z z /\ (0 <= z <= 255)%Z.
Proof.
  apply (ensure_uint8_range uint16 (stack3 [[100; 200]]%Q)
           (mk_ndarray uint8 [[[100; 100; 100]; [200; 200; 200]]]%Q)).
  - discriminate.
  - reflexivity.
Defined.






End NormalisedValues.

(** ** Bands beyond the third *)

Section ExtraBands.
Import Py Sys Georef Samples.

(** X18: only the first three bands of a raster with three or more bands
    reach the image: two files whose rasters agree on the first three
    bands, the datatype, the transform and the CRS load to the same
    result, whatever further bands (an alpha band, say) either has. *)
Theorem load_ignores_bands_beyond_third
    (gdal_decode : string -> option Dataset) (w : World)
    (path path' bytes bytes' : string) (src src' : Dataset)
    (r g b : list (list Q)) (rest rest' : list (list (list Q))) :
  files w !! path = Some bytes -> gdal_decode bytes = Some src ->
  files w !! path' = Some bytes' -> gdal_decode bytes' = Some src' ->
  bands src = r :: g :: b :: rest ->
  bands src' = r :: g :: b :: rest' ->
  src_dtype src = src_dtype src' ->
  src_transform src = src_transform src' ->
  src_crs src = src_crs src' ->
  fst (load_geotiff_for_detection gdal_decode path w) =
  fst (load_geotiff_for_detection gdal_decode path' w).
Proof.
  intros Hf Hd Hf' Hd' Hb Hb' Hdt Ht Hcrs.
  rewrite (load_opened gdal_decode w path bytes src Hf Hd).
  rewrite (load_opened gdal_decode w path' bytes' src' Hf' Hd').
  cbn [fst]. unfold load_from, read_rgb, read_bands123, count, height, width.
  rewrite Hb, Hb', Hdt, Ht, Hcrs. reflexivity.
Qed.

Lemma load_ignores_bands_beyond_third_witness :
  fst (load_geotiff_for_detection decode_rgb "/data/rgba8.tif" disk_rgb) =
  fst (load_geotiff_for_detection decode_rgb "/data/rgb8.tif" disk_rgb).
Proof.
  apply (load_ignores_bands_beyond_third decode_rgb disk_rgb
           "/data/rgba8.tif" "/data/rgb8.tif" "rgba8" "rgb8" rgba8 rgb8
           [[10]]%Q [[20]]%Q [[30]]%Q [[[255]]]%Q []);
    reflexivity.
Defined.

End ExtraBands.

(** ** Dictionary names and dictionaries *)

Section DictionaryNames.
Import Py Detector.

Lemma get_aruco_dictionary_inv (name : string) (d : Dictionary) :
  get_aruco_dictionary name = inr d ->
  In (name, catalogue d) ARUCO_DICTIONARIES.
Proof.
  intros Hget.
  assert (Hin : In name (keys ARUCO_DICTIONARIES)).
  { apply contains_In. unfold get_aruco_dictionary in Hget.
    destruct (contains name ARUCO_DICTIONARIES); [reflexivity |].
    discriminate Hget. }
  simpl in Hin.
  repeat (destruct Hin as [<- | Hin];
          [vm_compute in Hget; injection Hget as <-; simpl; tauto |]).
  destruct Hin.
Qed.

(** X19: dictionary resolution is one-to-one: two names that resolve to the
    same dictionary are the same name, so no catalogue is reachable under
    an alias (names are compared exactly, letter case included). *)
Theorem get_aruco_dictionary_injective (name1 name2 : string) (d : Dictionary) :
  get_aruco_dictionary name1 = inr d ->
  get_aruco_dictionary name2 = inr d ->
  name1 = name2.
Proof.
  intros H1 H2.
  apply get_aruco_dictionary_inv in H1, H2.
  destruct d as [cat]. simpl in H1, H2.
  repeat (destruct H1 as [H1 | H1];
          [injection H1 as <- <-;
           repeat (destruct H2 as [H2 | H2];
                   [injection H2 as <-; reflexivity || discriminate |]);
           destruct H2 |]).
  destruct H1.
Qed.

Lemma get_aruco_dictionary_injective_witness :
  "DICT_6X6_250" = "DICT_6X6_250".
Proof.
  apply (get_aruco_dictionary_injective _ _ (mkDictionary DICT_6X6_250));
    reflexivity.
Defined.

End DictionaryNames.

(** ** The centre of a marker *)

Section MarkerCentre.
Import Py Georef Detector Samples.
Local Open Scope R_scope.

Lemma int_between (x : R) (lo hi : Z) :
  IZR lo <= x <= IZR hi -> (lo <= Py.int x <= hi)%Z.
Proof.
  intros [Hlo Hhi]. destruct (Rle_or_lt 0 x) as [Hp | Hn].
  - destruct (int_nonneg x Hp) as [H1 H2]. split.
    + apply Z.lt_succ_r, lt_IZR. rewrite succ_IZR. lra.
    + apply le_IZR. lra.
  - destruct (int_neg x Hn) as [H1 H2]. split.
    + apply le_IZR. lra.
    + apply Z.lt_succ_r, lt_IZR. rewrite succ_IZR. lra.
Qed.

Lemma pixel_fields (t : Affine) (id : Z) (c : Corners) :
  pixel_x (assemble t id c) = Py.int (Np.mean (map fst (rows c))) /\
  pixel_y (assemble t id c) = Py.int (Np.mean (map snd (rows c))) /\
  (longitude (assemble t id c), latitude (assemble t id c)) =
    pixel_to_coords t (Np.mean (map fst (rows c))) (Np.mean (map snd (rows c))).
Proof.
  unfold assemble. destruct (pixel_to_coords t _ _) as [lng lat].
  repeat split.
Qed.

(** X20: the centre pixel of a marker lies inside every whole-numbered
    box that holds its four corners, and the marker's longitude and
    latitude are the coordinates of the centre of exactly that pixel. *)
Theorem marker_centre_within_corners
    (t : Affine) (id : Z) (c : Corners) (lo_x hi_x lo_y hi_y : Z) :
  (forall p : Point,
     In p (rows c) ->
     IZR lo_x <= fst p <= IZR hi_x /\ IZR lo_y <= snd p <= IZR hi_y) ->
  let m := assemble t id c in
  (lo_x <= pixel_x m <= hi_x)%Z /\
  (lo_y <= pixel_y m <= hi_y)%Z /\
  (longitude m, latitude m) = xy t (pixel_y m) (pixel_x m) center.
Proof.
  intros Hbox m. subst m.
  destruct (pixel_fields t id c) as (-> & -> & ->).
  destruct (Hbox (corner0 c)) as [[? ?] [? ?]]; [simpl; tauto |].
  destruct (Hbox (corner1 c)) as [[? ?] [? ?]]; [simpl; tauto |].
  destruct (Hbox (corner2 c)) as [[? ?] [? ?]]; [simpl; tauto |].
  destruct (Hbox (corner3 c)) as [[? ?] [? ?]]; [simpl; tauto |].
  unfold rows. cbn [map]. rewrite !mean4.
  split; [apply int_between; lra |].
  split; [apply int_between; lra |].
  unfold pixel_to_coords. destruct (xy t _ _ center). reflexivity.
Qed.

Lemma marker_centre_within_corners_witness :
  let m := assemble identity_transform 7 square10 in
  (0 <= pixel_x m <= 10)%Z /\
  (0 <= pixel_y m <= 10)%Z /\
  (longitude m, latitude m) = xy identity_transform (pixel_y m) (pixel_x m) center.
Proof.
  apply (marker_centre_within_corners identity_transform 7 square10 0 10 0 10).
  intros p Hp. simpl in Hp.
  destruct Hp as [<- | [<- | [<- | [<- | []]]]]; simpl; lra.
Defined.

End MarkerCentre.

(** ** Upright squares *)

Section UprightSquares.
Import Py Georef Detector Samples Spec.
Local Open Scope R_scope.






End UprightSquares.
